(** * Conversational Unit Converter (uc2.py): selection state, dispatcher, history

    A shallow embedding of the Streamlit script [uc2.py].  The script is
    re-run from top to bottom on every user interaction; each block of the
    script is a function here, named after the variable it computes.

    - Python [str] is a sequence of Unicode code points ([len] and slicing
      count code points, not bytes).
    - [st.session_state] is a record whose fields are optional: a field is
      [None] while the attribute has not been set.
    - Float values are carried by their [repr] text, which is all the script
      ever asks of them (f-string interpolation, [str], [json.dumps]).
    - Comparing and printing lists and dicts is left to the Python runtime,
      a record of two functions that every interaction carries.
    - The HTTP round trip ([requests.post] then [response.json()]) is a
      function supplied by the environment. *)

From Stdlib Require Import String Ascii.
From stdpp Require Import base numbers list option pretty.

#[local] Open Scope list_scope.

(** ** Python strings *)

Module Py.

(** A code point. *)
Definition char := N.

(** A Python [str]. *)
Definition str := list char.

(** Reading a UTF-8 literal of this file as code points.  [pending]
    continuation bytes are still expected for the code point under
    construction [acc]. *)
Fixpoint decode_utf8 (pending : nat) (acc : N) (s : string) : str :=
  match s with
  | EmptyString => []
  | String a rest =>
      let b := N_of_ascii a in
      match pending with
      | O =>
          if (b <? 128)%N then b :: decode_utf8 0 0%N rest
          else if (b <? 224)%N then decode_utf8 1 (b - 192)%N rest
          else if (b <? 240)%N then decode_utf8 2 (b - 224)%N rest
          else decode_utf8 3 (b - 240)%N rest
      | S O => (acc * 64 + (b - 128))%N :: decode_utf8 0 0%N rest
      | S p => decode_utf8 p (acc * 64 + (b - 128))%N rest
      end
  end.

Definition lit (s : string) : str := decode_utf8 0 0%N s.
#[global] Arguments lit : simpl never.

(** [str(n)] for an [int]. *)
Definition str_of_int (z : Z) : str := lit (pretty z).
#[global] Arguments str_of_int : simpl never.



(** [needle in haystack] for two strings. *)
Definition substring (needle haystack : str) : Prop :=
  ∃ pre post, haystack = pre ++ needle ++ post.

End Py.

Import Py.

Notation "'py' s" := (Py.lit s%string) (at level 1, s at level 0, only parsing).

(** ** Static configuration *)

Definition model_options : list str :=
  [ py"mistralai/Mistral-7B-Instruct-v0.2"; py"meta-llama/Llama-2-7b-chat-hf" ].

(** The [unit_categories] dict, in insertion order. *)
Definition unit_categories : list (str * list str) :=
  [ (py"Length",      [py"mm"; py"cm"; py"m"; py"km"; py"in"; py"ft"; py"yd"; py"mi"]);
    (py"Weight/Mass", [py"mg"; py"g"; py"kg"; py"oz"; py"lb"; py"ton"]);
    (py"Volume",      [py"ml"; py"L"; py"gal"; py"pt"; py"qt"; py"fl oz"; py"cm³"; py"m³"]);
    (py"Temperature", [py"°C"; py"°F"; py"K"]);
    (py"Time",        [py"sec"; py"min"; py"hr"; py"day"; py"week"; py"month"; py"year"]);
    (py"Area",        [py"mm²"; py"cm²"; py"m²"; py"km²"; py"in²"; py"ft²"; py"acre"; py"hectare"]);
    (py"Speed",       [py"m/s"; py"km/h"; py"mph"; py"knot"]);
    (py"Pressure",    [py"Pa"; py"kPa"; py"bar"; py"psi"; py"atm"]);
    (py"Energy",      [py"J"; py"cal"; py"kcal"; py"kWh"; py"eV"]);
    (py"Data",        [py"bit"; py"byte"; py"KB"; py"MB"; py"GB"; py"TB"]) ].

(** [d[key]]: the value bound to [key]; [None] is Python's [KeyError]. *)
Fixpoint getitem {V} (d : list (str * V)) (key : str) : option V :=
  match d with
  | [] => None
  | (k, v) :: rest => if decide (k = key) then Some v else getitem rest key
  end.

(** ** Python objects, exceptions *)

(** What [response.json()] can decode to, and the numbers the value field
    yields.  A float is carried by its [repr] text. *)
Inductive scalar :=
| SNone
| SBool (b : bool)
| SInt (z : Z)
| SFloat (repr : str)
| SStr (s : str).

#[warnings="-register-all"]
Inductive pyobj :=
| PScalar (x : scalar)
| PList (items : list pyobj)
| PDict (entries : list (str * pyobj)).

Abbreviation PStr s := (PScalar (SStr s)).
Abbreviation PInt z := (PScalar (SInt z)).
Abbreviation PFloat r := (PScalar (SFloat r)).
Abbreviation PBool b := (PScalar (SBool b)).

(** [str(x)], also what an f-string field [{x}] interpolates. *)
Definition str_of (x : scalar) : str :=
  match x with
  | SNone => py"None"
  | SBool true => py"True"
  | SBool false => py"False"
  | SInt z => str_of_int z
  | SFloat repr => repr
  | SStr s => s
  end.

(** [type(o).__name__] *)
Definition type_name (o : pyobj) : str :=
  match o with
  | PScalar SNone => py"NoneType"
  | PScalar (SBool _) => py"bool"
  | PScalar (SInt _) => py"int"
  | PScalar (SFloat _) => py"float"
  | PScalar (SStr _) => py"str"
  | PList _ => py"list"
  | PDict _ => py"dict"
  end.

(** An instance of a subclass of [Exception]: its class name and the text
    [str(e)] gives. *)
Record exn := Exception { exn_type : str; exn_str : str }.

(** A computation that returns or raises. *)
Inductive result (A : Type) :=
| Ok (a : A)
| Raise (e : exn).
Arguments Ok {A} a.
Arguments Raise {A} e.

#[global] Instance result_ret : MRet result := λ A a, Ok a.
#[global] Instance result_bind : MBind result := λ A B f m,
  match m with
  | Ok a => f a
  | Raise e => Raise e
  end.

(** [try: body  except Exception as e: handler(e)] *)
Definition try_except {A} (body : result A) (handler : exn → result A)
  : result A :=
  match body with
  | Ok a => Ok a
  | Raise e => handler e
  end.

(** [items[i]] on a list *)
Definition list_getitem (items : list pyobj) (i : nat) : result pyobj :=
  match items !! i with
  | Some x => Ok x
  | None => Raise (Exception py"IndexError" py"list index out of range")
  end.

(** [d.get(key, default)] on a dict *)
Definition dict_get (entries : list (str * pyobj)) (key : str) (default : pyobj)
  : pyobj :=
  match getitem entries key with
  | Some v => v
  | None => default
  end.

(** [o.get(key, default)] on any object: only a dict has the method. *)
Definition get (o : pyobj) (key : str) (default : pyobj) : result pyobj :=
  match o with
  | PDict entries => Ok (dict_get entries key default)
  | other =>
      Raise (Exception py"AttributeError"
               (py"'" ++ type_name other ++ py"' object has no attribute 'get'"))
  end.

(** ** Selection state (script lines 42-90) *)

(** [st.session_state]: the four attributes the script ever sets.  The
    history is a list of Python objects: an entry is a [str], or the response
    itself when that is a list or a dict (line 150). *)
Record session_state := SessionState {
  from_unit : option str;
  to_unit : option str;
  current_category : option str;
  conversion_history : option (list pyobj)
}.

(** The state of a fresh session. *)
Definition empty_session : session_state :=
  {| from_unit := None; to_unit := None; current_category := None;
     conversion_history := None |}.

(** [l.index(x)]: position of the first element equal to [x]; [None] is
    Python's [ValueError]. *)
Definition index (l : list str) (x : str) : option nat :=
  fst <$> list_find (λ y, y = x) l.

(** Lines 50-53: (re)initialise the units when the session is fresh or the
    category selector shows another category than the stored one.  [None]
    is an uncaught [KeyError] or [IndexError]. *)
Definition init_units (ss : session_state) (selected_category : str)
  : option session_state :=
  if bool_decide (from_unit ss = None)
     || bool_decide (current_category ss ≠ Some selected_category)
  then
    units ← getitem unit_categories selected_category;
    first ← units !! 0;
    second ← (if bool_decide (1 < length units) then units !! 1 else units !! 0);
    Some {| from_unit := Some first;
            to_unit := Some second;
            current_category := Some selected_category;
            conversion_history := conversion_history ss |}
  else Some ss.

(** Lines 75-77: the candidates of the "To Unit" selector. *)
Definition to_options (units : list str) (from_unit : str) : list str :=
  filter (λ unit, unit ≠ from_unit) units ++ [from_unit].

(** Lines 80-83: the position pre-selected in the "To Unit" selector, from
    the stored [to_unit]. *)
Definition default_index (stored_to : str) (units to_options : list str)
  : option nat :=
  if bool_decide (stored_to ∈ units) then
    if bool_decide (stored_to ∈ to_options) then index to_options stored_to
    else Some 0
  else Some 0.

(** [st.selectbox(label, options, index=index)]: the option the user picked,
    or [options[index]] while the widget shows its default. *)
Definition selectbox (options : list str) (index : nat) (picked : option str)
  : option str :=
  match picked with
  | Some choice => if bool_decide (choice ∈ options) then Some choice else None
  | None => options !! index
  end.

(** Lines 47-90, one run of the script: the category selector shows
    [selected_category], the user's picks in the two unit selectors are
    [picked_from] and [picked_to] ([None]: the selector shows its default). *)
Definition run_selection (ss : session_state) (selected_category : str)
    (picked_from picked_to : option str) : option session_state :=
  ss ← init_units ss selected_category;
  units ← getitem unit_categories selected_category;
  stored_from ← from_unit ss;
  from_index ← index units stored_from;
  from ← selectbox units from_index picked_from;
  let options := to_options units from in
  stored_to ← to_unit ss;
  to_index ← default_index stored_to units options;
  to ← selectbox options to_index picked_to;
  Some {| from_unit := Some from;
          to_unit := Some to;
          current_category := current_category ss;
          conversion_history := conversion_history ss |}.

(** The three operations of the selection state manager, as script runs. *)
Definition selectCategory (ss : session_state) (category : str)
  : option session_state :=
  init_units ss category.

(** A new "from" unit changes the candidates of the "To Unit" selector,
    which is then drawn afresh and shows its default. *)
Definition selectFromUnit (ss : session_state) (category unit : str)
  : option session_state :=
  run_selection ss category (Some unit) None.

Definition selectToUnit (ss : session_state) (category unit : str)
  : option session_state :=
  from ← from_unit ss;
  run_selection ss category (Some from) (Some unit).

(** The candidate list in the spec's words: the units of the category with
    [u] removed, then [u] once at the end. *)
Fixpoint minus (units : list str) (u : str) : list str :=
  match units with
  | [] => []
  | x :: rest => if decide (x = u) then minus rest u else x :: minus rest u
  end.

Definition toCandidates (units : list str) (u : str) : list str :=
  minus units u ++ [u].

(** ** The dispatcher (script lines 92-131) *)

(** What [requests.post] is called with; [data] is the object handed to
    [json.dumps]. *)
Record request := Request {
  url : str;
  headers : list (str * str);
  data : pyobj
}.

(** The environment's answer to a request: [requests.post] followed by
    [response.json()] either raises (connection error, timeout, a body that
    is not JSON) or yields the decoded body. *)
Definition http := request → result pyobj.

Definition nl : str := [10%N].

(** Lines 101-106 *)
Definition prompt (value : scalar) (from_unit to_unit category : str) : str :=
  nl ++ py"    You are a helpful and friendly unit converter assistant. " ++
  nl ++ py"    Please convert " ++ str_of value ++ py" " ++ from_unit ++
        py" to " ++ to_unit ++ py" in the category of " ++ category ++ py"." ++
  nl ++ py"    Respond in a conversational tone as if speaking to a friend. " ++
  nl ++ py"    Include the numeric result and a brief explanation of how the conversion works." ++
  nl ++ py"    ".

(** Lines 108-115 *)
Definition payload (prompt : str) : pyobj :=
  PDict [ (py"inputs", PStr prompt);
          (py"parameters",
            PDict [ (py"temperature", PFloat py"0.7");
                    (py"max_new_tokens", PInt 150);
                    (py"return_full_text", PBool false) ]) ].

(** Lines 121-126: the text taken from the decoded response. *)
Definition result_text (response_json : pyobj) : result pyobj :=
  match response_json with
  | PList items =>
      first ← list_getitem items 0;
      get first py"generated_text" (PStr py"")
  | PDict entries => Ok (dict_get entries py"generated_text" (PStr py""))
  | PScalar x => Ok (PStr (str_of x))
  end.

(** Lines 94-115: the request built from the arguments. *)
Definition build_request (value : scalar) (from_unit to_unit category model : str)
    (api_key : option str) : request :=
  let API_URL := py"https://api-inference.huggingface.co/models/" ++ model in
  let headers :=
    [ (py"Authorization", py"Bearer " ++ from_option id py"None" api_key);
      (py"Content-Type", py"application/json") ] in
  {| url := API_URL; headers := headers;
     data := payload (prompt value from_unit to_unit category) |}.

(** Lines 118-128: the body of the [try]. *)
Definition try_body (post : http) (req : request) : result pyobj :=
  response_json ← post req;
  result_text response_json.

Definition sorry_prefix : str := py"Sorry, I encountered an error: ".

(** Lines 93-131 *)
Definition get_conversion_response (value : scalar)
    (from_unit to_unit category model : str) (api_key : option str)
    (post : http) : result pyobj :=
  try_except
    (try_body post (build_request value from_unit to_unit category model api_key))
    (λ e, Ok (PStr (sorry_prefix ++ exn_str e))).

(** ** The Convert button and the history (script lines 133-156) *)

(** Line 137 *)
Definition query (value : scalar) (from_unit to_unit : str) : str :=
  str_of value ++ py" " ++ from_unit ++ py" to " ++ to_unit.

(** Line 150.  The conditional expression spans the whole right-hand side:
    [(f"{query} → {response[:100]}...") if len(response) > 100 else response]. *)
Definition history_entry (query response : str) : str :=
  if bool_decide (100 < length response)
  then query ++ py" → " ++ take 100 response ++ py"..."
  else response.

(** Lines 151-154 on a history of text entries: [insert(0, entry)] unless
    the entry is present, then [pop()] of the last entry once there are more
    than five.  [insert_entry] below is the same for any entry object. *)
Definition record_history (entry : str) (history : list str) : list str :=
  if bool_decide (entry ∈ history) then history
  else
    let history := entry :: history in
    if bool_decide (5 < length history) then removelast history else history.

(** What the script asks of the Python runtime on objects this development
    does not look into: [py_eq x y] is the outcome of the comparison that
    [in] makes ([x is y or x == y]) between two objects that are not both
    [str] (it involves float comparison and object identity), and [py_str x]
    is [str(x)] for a list or a dict (it involves [repr]).  One thing is
    assumed: an object compares equal to an object of the same content
    (decoding the same JSON twice gives equal objects; the decoder makes
    every NaN the same float object). *)
Record runtime := Runtime {
  py_eq : pyobj → pyobj → bool;
  py_str : pyobj → str;
  py_eq_refl : ∀ x, py_eq x x = true
}.

(** [len(o)]; [None] is the [TypeError] of an object without a length. *)
Definition len (o : pyobj) : option nat :=
  match o with
  | PStr s => Some (length s)
  | PList items => Some (length items)
  | PDict entries => Some (length (remove_dups entries.*1))
  | PScalar _ => None
  end.

(** [str(o)], what an f-string field yields for [o]. *)
Definition format (rt : runtime) (o : pyobj) : str :=
  match o with
  | PScalar x => str_of x
  | _ => py_str rt o
  end.

(** Line 150 for any response object.  [None] is the [TypeError] raised by
    [len] of [None] or a number, or by slicing a dict.  On a [str] response
    this is [history_entry]. *)
Definition history_entry_of (rt : runtime) (query : str) (response : pyobj)
  : option pyobj :=
  n ← len response;
  if bool_decide (100 < n) then
    match response with
    | PStr r => Some (PStr (query ++ py" → " ++ take 100 r ++ py"..."))
    | PList items =>
        Some (PStr (query ++ py" → " ++ format rt (PList (take 100 items))
                    ++ py"..."))
    | _ => None
    end
  else Some response.

(** [stored == entry] as [in] evaluates it: two [str] are equal when they
    are the same text, a [str] equals no other object, and the runtime
    decides the rest. *)
Definition entry_eq (rt : runtime) (stored entry : pyobj) : bool :=
  match stored, entry with
  | PStr a, PStr b => bool_decide (a = b)
  | PStr _, _ => false
  | _, PStr _ => false
  | _, _ => py_eq rt stored entry
  end.

(** [entry in history] *)
Definition contains (rt : runtime) (history : list pyobj) (entry : pyobj) : bool :=
  existsb (λ stored, entry_eq rt stored entry) history.

(** Lines 151-154 for any entry object.  On text entries this is
    [record_history]. *)
Definition insert_entry (rt : runtime) (entry : pyobj) (history : list pyobj)
  : list pyobj :=
  if contains rt history entry then history
  else
    let history := entry :: history in
    if bool_decide (5 < length history) then removelast history else history.

(** A history all of whose entries are text. *)
Definition text_entries (texts : list str) : list pyobj :=
  (λ text, PStr text) <$> texts.

(** Lines 147-148: the history is created on the first press. *)
Definition init_history (ss : session_state) : session_state :=
  {| from_unit := from_unit ss;
     to_unit := to_unit ss;
     current_category := current_category ss;
     conversion_history := Some (default [] (conversion_history ss)) |}.

(** Lines 147-154 on the session state. *)
Definition store_in_history (rt : runtime) (ss : session_state) (entry : pyobj)
  : session_state :=
  {| from_unit := from_unit ss;
     to_unit := to_unit ss;
     current_category := current_category ss;
     conversion_history :=
       Some (insert_entry rt entry (default [] (conversion_history ss))) |}.

(** [x is None] *)
Definition is_none (x : scalar) : bool :=
  match x with
  | SNone => true
  | _ => false
  end.

(** Truth value of a [str]. *)
Definition truthy (s : str) : bool := negb (bool_decide (s = [])).

(** How a run of the script ends: normally, or stopped by an exception that
    nothing catches.  Either way the session keeps what the run wrote. *)
Inductive ending :=
| Completed
| Aborted.

(** Lines 134-156: the button was pressed.  The result is how the run ends
    and the session it leaves.  A response without a length, or a dict of
    more than 100 keys, stops the run at line 150, after line 148 has
    created the history. *)
Definition convert_pressed (rt : runtime) (ss : session_state) (value : scalar)
    (from_unit to_unit selected_category selected_model : str)
    (api_key : option str) (post : http) : ending * session_state :=
  if negb (is_none value) && truthy from_unit && truthy to_unit then
    let query := query value from_unit to_unit in
    match get_conversion_response value from_unit to_unit selected_category
                                  selected_model api_key post with
    | Ok response =>
        match history_entry_of rt query response with
        | Some history_entry => (Completed, store_in_history rt ss history_entry)
        | None => (Aborted, init_history ss)
        end
    | Raise _ => (Aborted, ss)
    end
  else (Completed, ss).

(** [st.number_input("Value:", step=0.1)]: with a float step the field
    returns a float.  For the number 5 typed into it that is the float 5.0,
    whose [repr] is "5.0". *)
Definition value_5 : scalar := SFloat py"5.0".

(** One user interaction: what the widgets return during the run it
    triggers, and how the outside world and the runtime answer. *)
Record interaction := Interaction {
  api_key : option str;
  selected_model : str;
  selected_category : str;
  value : scalar;
  picked_from : option str;
  picked_to : option str;
  convert : bool;
  post : http;
  python : runtime
}.

(** One run of the whole script.  [None]: the selectors abort, which they
    never do in a session a user can bring about, for what the widgets can
    return (see [run_selection_succeeds]). *)
Definition run (ss : session_state) (i : interaction)
  : option (ending * session_state) :=
  ss ← run_selection ss (selected_category i) (picked_from i) (picked_to i);
  if convert i then
    from ← from_unit ss;
    to ← to_unit ss;
    Some (convert_pressed (python i) ss (value i) from to (selected_category i)
            (selected_model i) (api_key i) (post i))
  else Some (Completed, ss).

(** The session states a user can bring about: what any run leaves,
    whether it completes or is stopped at line 150. *)
Inductive reachable : session_state → Prop :=
| reachable_empty : reachable empty_session
| reachable_run ss i how ss' :
    reachable ss → run ss i = Some (how, ss') → reachable ss'.

(** The history as the display loop of lines 159-162 sees it. *)
Definition history (ss : session_state) : list pyobj :=
  default [] (conversion_history ss).

(** Lines 158-162: the markdown blocks of the history panel, a heading and
    one bullet per entry; nothing while the history is absent or empty. *)
Definition recent_conversions (rt : runtime) (ss : session_state) : list str :=
  match conversion_history ss with
  | Some (entry :: rest) =>
      py"### Recent Conversions"
      :: ((λ entry, py"- " ++ format rt entry) <$> entry :: rest)
  | _ => []
  end.

(** The history after conversions whose entries are [entries], oldest
    conversion first. *)
Definition record_all (history : list str) (entries : list str) : list str :=
  foldl (λ history entry, record_history entry history) history entries.

(** The stored selection is a "from" and a "to" unit of the stored category,
    which is a category of the table. *)
Definition selection (ss : session_state) (name : str) (units : list str)
    (from to : str) : Prop :=
  getitem unit_categories name = Some units
  ∧ current_category ss = Some name
  ∧ from_unit ss = Some from ∧ from ∈ units
  ∧ to_unit ss = Some to ∧ to ∈ units.

Definition consistent (ss : session_state) : Prop :=
  ∃ name units from to, selection ss name units from to.

(** ** Concrete sessions and responses *)

Definition length_units : list str :=
  [py"mm"; py"cm"; py"m"; py"km"; py"in"; py"ft"; py"yd"; py"mi"].

(** A runtime for the examples, which only handle text: it is never asked
    to compare or to print a container. *)
Definition plain_runtime : runtime :=
  {| py_eq := λ _ _, true;
     py_str := λ _, py"[...]";
     py_eq_refl := λ _, eq_refl |}.

(** The interaction that opens the Length category in a fresh session. *)
Definition open_length : interaction :=
  {| api_key := None;
     selected_model := py"mistralai/Mistral-7B-Instruct-v0.2";
     selected_category := py"Length";
     value := SFloat py"0.0";
     picked_from := None;
     picked_to := None;
     convert := false;
     post := λ _, Raise (Exception py"ConnectionError" py"unreachable");
     python := plain_runtime |}.

(** The session the script sets up on its first run. *)
Definition length_session : session_state :=
  SessionState (Some py"mm") (Some py"cm") (Some py"Length") None.

(** The three payloads of the spec's examples. *)
Definition payload_X : pyobj := PList [PDict [(py"generated_text", PStr py"X")]].
Definition payload_Y : pyobj := PDict [(py"generated_text", PStr py"Y")].
Definition payload_empty : pyobj := PDict [].

(** What the spec's extraction policy promises for a list: the field of
    element 0, the empty string when there is no such field. *)
Definition field_of_element_0 (items : list pyobj) : pyobj :=
  match items !! 0 with
  | Some (PDict entries) => dict_get entries py"generated_text" (PStr py"")
  | _ => PStr py""
  end.


Definition five_entries : list str :=
  [py"e5"; py"e4"; py"e3"; py"e2"; py"e1"].

Definition short_answer : str := py"5 meters is about 16.4 feet.".

(** A model that answers with a number in the [generated_text] field. *)
Definition number_post : http :=
  λ _, Ok (PDict [(py"generated_text", PInt 42)]).

(** A model that answers every request with [short_answer]. *)
Definition short_post : http :=
  λ _, Ok (PList [PDict [(py"generated_text", PStr short_answer)]]).


(** A model that answers every request with the text [answer]. *)
Definition reply (answer : str) : http :=
  λ _, Ok (PList [PDict [(py"generated_text", PStr answer)]]).

(** The user presses Convert on 5.0 with the selectors untouched, and the
    model answers [answer]. *)
Definition press (answer : str) : interaction :=
  {| api_key := None;
     selected_model := py"mistralai/Mistral-7B-Instruct-v0.2";
     selected_category := py"Length";
     value := value_5;
     picked_from := None;
     picked_to := None;
     convert := true;
     post := reply answer;
     python := plain_runtime |}.

(** A model that answers with a list in the [generated_text] field. *)
Definition list_post : http :=
  λ _, Ok (PDict [(py"generated_text", PList [PInt 1; PInt 2])]).

(** The user presses Convert on 5.0 with the selectors untouched, and the
    outside world answers as [answers] does. *)
Definition press_with (answers : http) : interaction :=
  {| api_key := None;
     selected_model := py"mistralai/Mistral-7B-Instruct-v0.2";
     selected_category := py"Length";
     value := value_5;
     picked_from := None;
     picked_to := None;
     convert := true;
     post := answers;
     python := plain_runtime |}.

(** The Length session after five conversions answered "e1" to "e5". *)
Definition full_session : session_state :=
  SessionState (Some py"mm") (Some py"cm") (Some py"Length")
    (Some (text_entries five_entries)).

(** A session with the units of the spec's scenario. *)
Definition meters_session : session_state :=
  SessionState (Some py"m") (Some py"ft") (Some py"Length") None.

(** * Properties *)

(** ** The definitions on small inputs *)

Example decode_superscript : py"cm³" = [99; 109; 179]%N.
Proof. reflexivity. Qed.

Example decode_arrow : py" → " = [32; 8594; 32]%N.
Proof. reflexivity. Qed.

Example str_of_int_5 : str_of_int 5 = py"5".
Proof. vm_compute. reflexivity. Qed.

Example length_reset :
  selectCategory empty_session py"Length"
  = Some (SessionState (Some py"mm") (Some py"cm") (Some py"Length") None).
Proof. vm_compute. reflexivity. Qed.

Example length_from_cm :
  selectFromUnit (SessionState (Some py"mm") (Some py"cm") (Some py"Length") None)
                 py"Length" py"cm"
  = Some (SessionState (Some py"cm") (Some py"cm") (Some py"Length") None).
Proof. vm_compute. reflexivity. Qed.

Example length_from_m :
  selectFromUnit (SessionState (Some py"mm") (Some py"cm") (Some py"Length") None)
                 py"Length" py"m"
  = Some (SessionState (Some py"m") (Some py"cm") (Some py"Length") None).
Proof. vm_compute. reflexivity. Qed.

(** ** The category table *)

Lemma unit_categories_wf name units :
  getitem unit_categories name = Some units →
  NoDup units ∧ 2 ≤ length units.
Proof.
  unfold unit_categories; cbn [getitem].
  repeat case_decide; intros [= <-];
    (split; [apply (bool_decide_unpack _); vm_compute; reflexivity
            | vm_compute; lia]).
Qed.

(** ** Candidates of the "To Unit" selector *)

Section to_options.
Implicit Types (units : list str) (u : str).

Lemma minus_filter units u :
  minus units u = filter (λ x, x ≠ u) units.
Proof.
  induction units as [|x rest IH]; [done|].
  cbn [minus]. rewrite filter_cons.
  destruct (decide (x = u)); destruct (decide (x ≠ u));
    try contradiction; by rewrite IH.
Qed.

Lemma filter_ne_absent units u :
  u ∉ units → filter (λ x, x ≠ u) units = units.
Proof.
  induction units as [|x rest IH]; [done|].
  intros [Hx Hrest]%not_elem_of_cons.
  rewrite filter_cons_True by congruence. by rewrite IH.
Qed.

Lemma length_filter_ne units u :
  NoDup units → u ∈ units →
  S (length (filter (λ x, x ≠ u) units)) = length units.
Proof.
  induction 1 as [|x rest Hx Hnd IH]; intros Hin.
  - by apply elem_of_nil in Hin.
  - rewrite filter_cons. destruct (decide (x ≠ u)) as [Hne|Heq].
    + apply elem_of_cons in Hin as [->|Hin]; [done|].
      cbn. by rewrite IH.
    + assert (x = u) as -> by (destruct (decide (x = u)); tauto).
      cbn. by rewrite filter_ne_absent.
Qed.

Lemma to_options_length units u :
  NoDup units → u ∈ units → length (to_options units u) = length units.
Proof.
  intros. unfold to_options. rewrite length_app. cbn.
  rewrite Nat.add_1_r. by apply length_filter_ne.
Qed.

Lemma to_options_NoDup units u :
  NoDup units → NoDup (to_options units u).
Proof.
  intros Hnd. unfold to_options. apply NoDup_app. split_and!.
  - by apply NoDup_filter.
  - intros x [Hne _]%list_elem_of_filter ->%list_elem_of_singleton. done.
  - apply NoDup_singleton.
Qed.

Lemma to_options_elem_of units u x :
  x ∈ to_options units u ↔ x ∈ units ∨ x = u.
Proof.
  unfold to_options.
  rewrite elem_of_app, list_elem_of_filter, list_elem_of_singleton.
  split.
  - intros [[_ Hx]|Hx]; auto.
  - intros [Hx|Hx]; [|by right].
    destruct (decide (x = u)); [by right | by left].
Qed.
End to_options.

(** C2. For every category of the table and every from-unit [u] of it, the
    candidates of the "To Unit" selector are the category's units with [u]
    removed followed by [u]; there are as many candidates as units, and no
    candidate occurs twice. *)
Theorem to_options_spec name units u :
  getitem unit_categories name = Some units →
  u ∈ units →
  to_options units u = toCandidates units u
  ∧ length (to_options units u) = length units
  ∧ NoDup (to_options units u).
Proof.
  intros [Hnd _]%unit_categories_wf Hu. split_and!.
  - unfold toCandidates. by rewrite minus_filter.
  - by apply to_options_length.
  - by apply to_options_NoDup.
Qed.

Lemma to_options_spec_witness :
  to_options [py"°C"; py"°F"; py"K"] py"°F" = toCandidates [py"°C"; py"°F"; py"K"] py"°F"
  ∧ length (to_options [py"°C"; py"°F"; py"K"] py"°F") = 3
  ∧ NoDup (to_options [py"°C"; py"°F"; py"K"] py"°F").
Proof.
  apply (to_options_spec py"Temperature" [py"°C"; py"°F"; py"K"] py"°F").
  - vm_compute. reflexivity.
  - apply (bool_decide_unpack _). vm_compute. reflexivity.
Defined.

(** ** Selecting a category *)

(** C3. Selecting a category of the table that is not the stored one sets
    [from_unit] to its first unit, [to_unit] to its second unit when it has
    at least two units and to its first unit otherwise, and stores the
    category as the current one. *)
Theorem selectCategory_resets ss name units :
  getitem unit_categories name = Some units →
  current_category ss ≠ Some name →
  ∃ first second,
    units !! 0 = Some first
    ∧ (if bool_decide (2 ≤ length units) then units !! 1 else units !! 0)
      = Some second
    ∧ selectCategory ss name
      = Some {| from_unit := Some first;
                to_unit := Some second;
                current_category := Some name;
                conversion_history := conversion_history ss |}.
Proof.
  intros Hget Hcur.
  destruct (unit_categories_wf _ _ Hget) as [_ Hlen].
  destruct units as [|first [|second rest]]; cbn in Hlen; try lia.
  exists first, second. split_and!; [done | done |].
  unfold selectCategory, init_units.
  rewrite (bool_decide_eq_true_2 (current_category ss ≠ Some name)) by done.
  rewrite orb_true_r, Hget. reflexivity.
Qed.

Lemma selectCategory_resets_witness :
  ∃ first second,
    [py"m/s"; py"km/h"; py"mph"; py"knot"] !! 0 = Some first
    ∧ (if bool_decide (2 ≤ length [py"m/s"; py"km/h"; py"mph"; py"knot"])
       then [py"m/s"; py"km/h"; py"mph"; py"knot"] !! 1
       else [py"m/s"; py"km/h"; py"mph"; py"knot"] !! 0) = Some second
    ∧ selectCategory (SessionState (Some py"mm") (Some py"ft") (Some py"Length") None)
                     py"Speed"
      = Some {| from_unit := Some first;
                to_unit := Some second;
                current_category := Some py"Speed";
                conversion_history := None |}.
Proof.
  apply (selectCategory_resets
           (SessionState (Some py"mm") (Some py"ft") (Some py"Length") None)
           py"Speed" [py"m/s"; py"km/h"; py"mph"; py"knot"]).
  - vm_compute. reflexivity.
  - vm_compute. discriminate.
Defined.

(** ** Selecting a "from" unit *)

Lemma length_session_reachable : reachable length_session.
Proof.
  apply (reachable_run empty_session open_length Completed);
    [apply reachable_empty|].
  vm_compute. reflexivity.
Qed.

Lemma index_elem_of l x :
  x ∈ l → ∃ i, index l x = Some i ∧ l !! i = Some x.
Proof.
  intros Hx.
  destruct (list_find_elem_of (λ y, y = x) l x Hx eq_refl) as [[i y] Hfind].
  exists i. unfold index. rewrite Hfind. split; [done|].
  by apply list_find_Some in Hfind as (? & -> & _).
Qed.

Lemma init_units_same ss name :
  is_Some (from_unit ss) → current_category ss = Some name →
  init_units ss name = Some ss.
Proof.
  intros [f Hf] Hcur. unfold init_units.
  rewrite bool_decide_eq_false_2 by (rewrite Hf; discriminate).
  rewrite bool_decide_eq_false_2 by (intros H; by apply H).
  reflexivity.
Qed.

(** A category with two distinct units offers a candidate other than the
    "from" unit, and the first candidate is such a one. *)
Lemma to_options_head units u :
  NoDup units → 2 ≤ length units →
  ∃ first, to_options units u !! 0 = Some first ∧ first ≠ u ∧ first ∈ units.
Proof.
  intros Hnd Hlen. unfold to_options.
  destruct (filter (λ x, x ≠ u) units) as [|first rest] eqn:Hfilter.
  - exfalso. destruct units as [|a [|b rest]]; cbn in Hlen; try lia.
    assert (∀ x, x ∈ a :: b :: rest → x = u) as Hall.
    { intros x Hx. destruct (decide (x = u)) as [|Hne]; [done|].
      exfalso. by apply (filter_nil_not_elem_of _ _ x Hfilter Hne). }
    apply NoDup_cons in Hnd as [Ha _]. apply Ha.
    rewrite (Hall a), (Hall b); [apply list_elem_of_here | | ];
      rewrite !elem_of_cons; auto.
  - exists first. split; [done|].
    assert (first ∈ filter (λ x, x ≠ u) units) as Hin
        by (rewrite Hfilter; apply list_elem_of_here).
    by apply list_elem_of_filter in Hin.
Qed.

Lemma selectbox_picked options i x :
  x ∈ options → selectbox options i (Some x) = Some x.
Proof. intros Hx. cbn. by rewrite bool_decide_eq_true_2. Qed.

Lemma selectbox_default options i :
  selectbox options i None = options !! i.
Proof. reflexivity. Qed.

(** The session after the From selector returns [u] and the To selector
    shows its default: what [to_unit] becomes, whatever the stored one was. *)
Lemma selectFromUnit_default ss name units u stored_from stored_to :
  getitem unit_categories name = Some units →
  current_category ss = Some name →
  from_unit ss = Some stored_from → stored_from ∈ units →
  to_unit ss = Some stored_to →
  u ∈ units →
  ∃ to,
    selectFromUnit ss name u
    = Some {| from_unit := Some u;
              to_unit := Some to;
              current_category := Some name;
              conversion_history := conversion_history ss |}
    ∧ (stored_to ∈ units → to = stored_to)
    ∧ (stored_to ∉ units → to_options units u !! 0 = Some to).
Proof.
  intros Hget Hcur Hfrom Hfrom_in Hto Hu.
  destruct (unit_categories_wf _ _ Hget) as [Hnd Hlen].
  destruct (index_elem_of _ _ Hfrom_in) as (i & Hi & _).
  unfold selectFromUnit, run_selection.
  rewrite init_units_same by (rewrite ?Hfrom; eauto).
  cbn [mbind option_bind]. rewrite Hget. cbn [mbind option_bind].
  rewrite Hfrom. cbn [mbind option_bind]. rewrite Hi. cbn [mbind option_bind].
  rewrite selectbox_picked by done.
  cbn [mbind option_bind]. rewrite Hto. cbn [mbind option_bind].
  unfold default_index. destruct (decide (stored_to ∈ units)) as [Hin|Hout].
  - rewrite bool_decide_eq_true_2 by done.
    rewrite bool_decide_eq_true_2 by (apply to_options_elem_of; auto).
    destruct (index_elem_of (to_options units u) stored_to) as (j & Hj & Hlook);
      [apply to_options_elem_of; auto|].
    rewrite Hj. cbn [mbind option_bind]. rewrite selectbox_default, Hlook.
    cbn [mbind option_bind]. rewrite Hcur. exists stored_to. by split_and!.
  - rewrite bool_decide_eq_false_2 by done.
    destruct (to_options_head units u Hnd Hlen) as (first & Hfirst & _).
    cbn [mbind option_bind]. rewrite selectbox_default, Hfirst.
    cbn [mbind option_bind]. rewrite Hcur. exists first. by split_and!.
Qed.

(** C1 (amended). In every category of the table, selecting any unit [u]
    of it as the from-unit stores as [to_unit] the previously stored
    [to_unit] when that is a unit of the category, and the first candidate
    otherwise.  So [to_unit] differs from [u] whenever the previously stored
    [to_unit] was not [u]; and when it was [u], the selector defaults to the
    last candidate, the from-unit itself, and [to_unit] is [u]. *)
Theorem selectFromUnit_to_unit_rule ss name units u stored_from stored_to :
  getitem unit_categories name = Some units →
  current_category ss = Some name →
  from_unit ss = Some stored_from → stored_from ∈ units →
  to_unit ss = Some stored_to →
  u ∈ units →
  ∃ to,
    selectFromUnit ss name u
    = Some {| from_unit := Some u;
              to_unit := Some to;
              current_category := Some name;
              conversion_history := conversion_history ss |}
    ∧ (stored_to ∈ units → to = stored_to)
    ∧ (stored_to ∉ units → to_options units u !! 0 = Some to)
    ∧ (stored_to ≠ u → to ≠ u)
    ∧ (stored_to = u → to = u ∧ last (to_options units u) = Some to).
Proof.
  intros Hget Hcur Hfrom Hfrom_in Hto Hu.
  destruct (selectFromUnit_default _ _ _ _ _ _ Hget Hcur Hfrom Hfrom_in Hto Hu)
    as (to & Hrun & Hkept & Hfirst).
  exists to. split_and!; try done.
  - intros Hne. destruct (decide (stored_to ∈ units)) as [Hin|Hout].
    + by rewrite (Hkept Hin).
    + destruct (unit_categories_wf _ _ Hget) as [Hnd Hlen].
      destruct (to_options_head units u Hnd Hlen)
        as (first & Hhead & Hfirst_ne & _).
      specialize (Hfirst Hout). congruence.
  - intros ->. rewrite (Hkept Hu). split; [done|].
    unfold to_options. apply last_snoc.
Qed.

Lemma selectFromUnit_to_unit_rule_witness :
  (∃ to,
     selectFromUnit length_session py"Length" py"km"
     = Some {| from_unit := Some py"km";
               to_unit := Some to;
               current_category := Some py"Length";
               conversion_history := None |}
     ∧ (py"cm" ∈ length_units → to = py"cm")
     ∧ (py"cm" ∉ length_units → to_options length_units py"km" !! 0 = Some to)
     ∧ (py"cm" ≠ py"km" → to ≠ py"km")
     ∧ (py"cm" = py"km"
        → to = py"km" ∧ last (to_options length_units py"km") = Some to))
  ∧ (∃ to,
       selectFromUnit length_session py"Length" py"cm"
       = Some {| from_unit := Some py"cm";
                 to_unit := Some to;
                 current_category := Some py"Length";
                 conversion_history := None |}
       ∧ (py"cm" ∈ length_units → to = py"cm")
       ∧ (py"cm" ∉ length_units → to_options length_units py"cm" !! 0 = Some to)
       ∧ (py"cm" ≠ py"cm" → to ≠ py"cm")
       ∧ (py"cm" = py"cm"
          → to = py"cm" ∧ last (to_options length_units py"cm") = Some to)).
Proof.
  split.
  - apply (selectFromUnit_to_unit_rule length_session
             py"Length" length_units py"km" py"mm" py"cm").
    + vm_compute. reflexivity.
    + reflexivity.
    + reflexivity.
    + apply (bool_decide_unpack _). vm_compute. reflexivity.
    + reflexivity.
    + apply (bool_decide_unpack _). vm_compute. reflexivity.
  - apply (selectFromUnit_to_unit_rule length_session
             py"Length" length_units py"cm" py"mm" py"cm").
    + vm_compute. reflexivity.
    + reflexivity.
    + reflexivity.
    + apply (bool_decide_unpack _). vm_compute. reflexivity.
    + reflexivity.
    + apply (bool_decide_unpack _). vm_compute. reflexivity.
Defined.

(** C1, as stated, fails: in the Length category (eight units), from the
    state the script sets up on its first run (from mm, to cm), selecting
    the from-unit cm leaves [to_unit] equal to cm, although seven other
    candidates are offered. *)
Lemma selectFromUnit_to_unit_equal :
  ¬ (∀ ss name units u ss',
       reachable ss →
       getitem unit_categories name = Some units →
       2 ≤ length units →
       current_category ss = Some name →
       u ∈ units →
       to_options units u ≠ [u] →
       selectFromUnit ss name u = Some ss' →
       to_unit ss' ≠ Some u).
Proof.
  intros Hclaim.
  apply (Hclaim length_session py"Length" length_units py"cm"
                (SessionState (Some py"cm") (Some py"cm") (Some py"Length") None)).
  - apply length_session_reachable.
  - vm_compute. reflexivity.
  - vm_compute. lia.
  - reflexivity.
  - apply (bool_decide_unpack _). vm_compute. reflexivity.
  - vm_compute. discriminate.
  - vm_compute. reflexivity.
  - reflexivity.
Qed.

(** ** The dispatcher *)

Section dispatcher.
Variables (value : scalar) (from_unit to_unit category model : str).
Variables (api_key : option str) (post : http).

Let req := build_request value from_unit to_unit category model api_key.
Let response :=
  get_conversion_response value from_unit to_unit category model api_key post.

Lemma response_decoded response_json :
  post req = Ok response_json →
  response = try_except (result_text response_json)
               (λ e, Ok (PStr (sorry_prefix ++ exn_str e))).
Proof.
  intros Hpost. unfold response, get_conversion_response, try_body.
  fold req. by rewrite Hpost.
Qed.

Lemma response_raised e :
  try_body post req = Raise e →
  response = Ok (PStr (sorry_prefix ++ exn_str e)).
Proof.
  intros Hbody. unfold response, get_conversion_response.
  fold req. by rewrite Hbody.
Qed.

End dispatcher.

(** A list without element 0, or whose element 0 has no [get] method, makes
    the extraction raise. *)
Lemma result_text_list_raises items :
  (∀ entries, items !! 0 ≠ Some (PDict entries)) →
  ∃ e, result_text (PList items) = Raise e.
Proof.
  intros Hnot. destruct items as [|[x| |entries] rest]; cbn; eauto.
  by destruct (Hnot entries).
Qed.

(** C4 (amended). The extraction takes the [generated_text] field (the empty
    string when absent) of element 0 of a list whose element 0 is a dict, takes
    the same field of a dict, and takes [str] of a response that is
    neither; it raises for a list that is empty or whose element 0 is not a
    dict.  The three example payloads give "X", "Y" and "". *)
Theorem result_text_policy :
  (∀ items,
     (∀ entries, items !! 0 ≠ Some (PDict entries)) →
     ∃ e, result_text (PList items) = Raise e)
  ∧ (∀ entries rest v,
     getitem entries py"generated_text" = Some v →
     result_text (PList (PDict entries :: rest)) = Ok v)
  ∧ (∀ entries rest,
       getitem entries py"generated_text" = None →
       result_text (PList (PDict entries :: rest)) = Ok (PStr py""))
  ∧ (∀ entries v,
       getitem entries py"generated_text" = Some v →
       result_text (PDict entries) = Ok v)
  ∧ (∀ entries,
       getitem entries py"generated_text" = None →
       result_text (PDict entries) = Ok (PStr py""))
  ∧ (∀ x, result_text (PScalar x) = Ok (PStr (str_of x)))
  ∧ (∀ value from_unit to_unit category model api_key,
       get_conversion_response value from_unit to_unit category model api_key
         (λ _, Ok payload_X) = Ok (PStr py"X")
       ∧ get_conversion_response value from_unit to_unit category model api_key
           (λ _, Ok payload_Y) = Ok (PStr py"Y")
       ∧ get_conversion_response value from_unit to_unit category model api_key
           (λ _, Ok payload_empty) = Ok (PStr py"")).
Proof.
  split_and!.
  - apply result_text_list_raises.
  - intros entries rest v Hv. cbn. unfold dict_get. by rewrite Hv.
  - intros entries rest Hv. cbn. unfold dict_get. by rewrite Hv.
  - intros entries v Hv. cbn. unfold dict_get. by rewrite Hv.
  - intros entries Hv. cbn. unfold dict_get. by rewrite Hv.
  - done.
  - intros. split_and!; reflexivity.
Qed.

Lemma result_text_policy_witness :
  result_text (PList [PDict [(py"generated_text", PInt 7)]; PInt 1]) = Ok (PInt 7)
  ∧ result_text (PList [PDict [(py"error", PStr py"loading")]]) = Ok (PStr py"")
  ∧ result_text (PDict [(py"generated_text", PStr py"Y")]) = Ok (PStr py"Y")
  ∧ result_text (PDict [(py"error", PStr py"loading")]) = Ok (PStr py"")
  ∧ ∃ e, result_text (PList [PStr py"loading"]) = Raise e.
Proof.
  destruct result_text_policy
    as (Hraise & Hlist & Hlist_absent & Hdict & Hdict_absent & _).
  split_and!.
  - apply Hlist. vm_compute. reflexivity.
  - apply Hlist_absent. vm_compute. reflexivity.
  - apply Hdict. vm_compute. reflexivity.
  - apply Hdict_absent. vm_compute. reflexivity.
  - apply Hraise. intros entries. cbn. discriminate.
Defined.

(** C4, as stated, fails: for a list without element 0 the dispatcher's
    result is not the field of element 0 nor the empty string. *)
Lemma result_text_list_fails :
  ¬ (∀ value from_unit to_unit category model api_key (post : http) items,
       post (build_request value from_unit to_unit category model api_key)
       = Ok (PList items) →
       get_conversion_response value from_unit to_unit category model api_key post
       = Ok (field_of_element_0 items)).
Proof.
  intros Hclaim.
  specialize (Hclaim (SInt 5) py"m" py"ft" py"Length"
                py"mistralai/Mistral-7B-Instruct-v0.2" None
                (λ _, Ok (PList [])) [] eq_refl).
  vm_compute in Hclaim. discriminate.
Qed.



(** C10. When the decoded response is the empty list, taking element 0
    raises [IndexError]; the handler catches it and the dispatcher returns
    the apologetic string, which is not the empty string. *)
Theorem empty_list_response
    value from_unit to_unit category model api_key (post : http) :
  post (build_request value from_unit to_unit category model api_key)
  = Ok (PList []) →
  result_text (PList [])
  = Raise (Exception py"IndexError" py"list index out of range")
  ∧ get_conversion_response value from_unit to_unit category model api_key post
    = Ok (PStr (sorry_prefix ++ py"list index out of range"))
  ∧ get_conversion_response value from_unit to_unit category model api_key post
    ≠ Ok (PStr py"").
Proof.
  intros Hpost.
  assert (get_conversion_response value from_unit to_unit category model
            api_key post
          = Ok (PStr (sorry_prefix ++ py"list index out of range"))) as Hresp.
  { by rewrite (response_decoded _ _ _ _ _ _ _ _ Hpost). }
  split_and!; [done | done |].
  rewrite Hresp. vm_compute. discriminate.
Qed.

Lemma empty_list_response_witness :
  result_text (PList [])
  = Raise (Exception py"IndexError" py"list index out of range")
  ∧ get_conversion_response (SInt 5) py"m" py"ft" py"Length"
      py"mistralai/Mistral-7B-Instruct-v0.2" None (λ _, Ok (PList []))
    = Ok (PStr (sorry_prefix ++ py"list index out of range"))
  ∧ get_conversion_response (SInt 5) py"m" py"ft" py"Length"
      py"mistralai/Mistral-7B-Instruct-v0.2" None (λ _, Ok (PList []))
    ≠ Ok (PStr py"").
Proof.
  apply (empty_list_response (SInt 5) py"m" py"ft" py"Length"
           py"mistralai/Mistral-7B-Instruct-v0.2" None (λ _, Ok (PList []))).
  reflexivity.
Defined.





(** ** The history *)

Section record_history.
Implicit Types (entry : str) (h : list str).

Lemma removelast_take h : removelast h = take (length h - 1) h.
Proof. rewrite removelast_firstn_len. by rewrite Nat.sub_1_r. Qed.

Lemma record_history_present entry h :
  entry ∈ h → record_history entry h = h.
Proof. intros Hin. unfold record_history. by rewrite bool_decide_eq_true_2. Qed.

Lemma record_history_fresh entry h :
  entry ∉ h → length h < 5 → record_history entry h = entry :: h.
Proof.
  intros Hout Hlen. unfold record_history.
  rewrite bool_decide_eq_false_2 by done.
  rewrite bool_decide_eq_false_2 by (cbn; lia). done.
Qed.

Lemma record_history_full entry h :
  entry ∉ h → 5 ≤ length h →
  record_history entry h = entry :: take (length h - 1) h.
Proof.
  intros Hout Hlen. unfold record_history.
  rewrite bool_decide_eq_false_2 by done.
  rewrite bool_decide_eq_true_2 by (cbn; lia).
  rewrite removelast_take. destruct h as [|x h]; cbn in *; [lia|].
  by rewrite Nat.sub_0_r.
Qed.

Lemma record_history_length entry h :
  length h ≤ 5 → length (record_history entry h) ≤ 5.
Proof.
  intros Hlen. destruct (decide (entry ∈ h)) as [Hin|Hout].
  - by rewrite record_history_present.
  - destruct (decide (length h < 5)).
    + rewrite record_history_fresh by done. cbn. lia.
    + rewrite record_history_full by (done || lia).
      cbn. rewrite length_take. lia.
Qed.

Lemma record_history_NoDup entry h :
  NoDup h → NoDup (record_history entry h).
Proof.
  intros Hnd. destruct (decide (entry ∈ h)) as [Hin|Hout].
  - by rewrite record_history_present.
  - destruct (decide (length h < 5)).
    + rewrite record_history_fresh by done. by apply NoDup_cons.
    + rewrite record_history_full by (done || lia).
      apply (sublist_NoDup _ (entry :: h)); [by apply NoDup_cons|].
      apply sublist_skip, sublist_take.
Qed.
End record_history.

(** The selectors never touch the history. *)
Lemma init_units_history ss name ss' :
  init_units ss name = Some ss' →
  conversion_history ss' = conversion_history ss.
Proof.
  unfold init_units. destruct (_ || _); [|by intros [= <-]].
  destruct (getitem _ _) as [units|]; [|done]. cbn [mbind option_bind].
  destruct (units !! 0); [|done]. cbn [mbind option_bind].
  destruct (if bool_decide _ then _ else _); [|done].
  by intros [= <-].
Qed.

Lemma run_selection_history ss name picked_from picked_to ss' :
  run_selection ss name picked_from picked_to = Some ss' →
  conversion_history ss' = conversion_history ss.
Proof.
  unfold run_selection.
  destruct (init_units ss name) as [ss1|] eqn:Hinit; [|done].
  apply init_units_history in Hinit. cbn [mbind option_bind].
  repeat (match goal with
          | |- (?m ≫= _) = Some _ → _ =>
              destruct m; [cbn [mbind option_bind] | done]
          end).
  by intros [= <-].
Qed.

Lemma selectbox_elem_of options i picked x :
  selectbox options i picked = Some x → x ∈ options.
Proof.
  destruct picked as [choice|]; cbn.
  - case_bool_decide; [|done]. by intros [= <-].
  - apply list_elem_of_lookup_2.
Qed.

Lemma init_units_current ss name ss' :
  init_units ss name = Some ss' →
  is_Some (from_unit ss') ∧ current_category ss' = Some name.
Proof.
  unfold init_units.
  destruct (bool_decide (from_unit ss = None)) eqn:Hfrom;
    [|destruct (bool_decide (current_category ss ≠ Some name)) eqn:Hcur]; cbn [orb].
  1,2: destruct (getitem _ _) as [units|]; [|done]; cbn [mbind option_bind];
       destruct (units !! 0); [|done]; cbn [mbind option_bind];
       destruct (if bool_decide _ then _ else _); [|done];
       intros [= <-]; cbn; eauto.
  intros [= <-].
  apply bool_decide_eq_false in Hfrom. apply bool_decide_eq_false in Hcur.
  split.
  - destruct (from_unit ss); [eauto | done].
  - destruct (decide (current_category ss = Some name)); [done | contradiction].
Qed.

(** Whatever the session was, a run that does not abort leaves a selection
    within the category shown, and the history as it was. *)
Lemma run_selection_selection ss name picked_from picked_to ss' :
  run_selection ss name picked_from picked_to = Some ss' →
  ∃ units from to,
    selection ss' name units from to
    ∧ conversion_history ss' = conversion_history ss.
Proof.
  intros Hrun.
  pose proof (run_selection_history _ _ _ _ _ Hrun) as Hhist.
  revert Hrun. unfold run_selection.
  destruct (init_units ss name) as [ss1|] eqn:Hinit; [|done].
  destruct (init_units_current _ _ _ Hinit) as [_ Hcur].
  cbn [mbind option_bind].
  destruct (getitem _ _) as [units|] eqn:Hget; [|done]. cbn [mbind option_bind].
  destruct (from_unit ss1) as [stored_from|]; [|done]. cbn [mbind option_bind].
  destruct (index _ _) as [i|]; [|done]. cbn [mbind option_bind].
  destruct (selectbox units i picked_from) as [from|] eqn:Hsel_from; [|done].
  cbn [mbind option_bind].
  destruct (to_unit ss1) as [stored_to|]; [|done]. cbn [mbind option_bind].
  destruct (default_index _ _ _) as [j|]; [|done]. cbn [mbind option_bind].
  destruct (selectbox _ j picked_to) as [to|] eqn:Hsel_to; [|done].
  cbn [mbind option_bind]. intros [= <-].
  apply selectbox_elem_of in Hsel_from. apply selectbox_elem_of in Hsel_to.
  exists units, from, to. split; [|done].
  split_and!; try done.
  apply to_options_elem_of in Hsel_to as [?| ->]; done.
Qed.

(** No unit label of the table is the empty string. *)
Lemma unit_categories_labels name units :
  getitem unit_categories name = Some units →
  Forall (λ unit, truthy unit = true) units.
Proof.
  unfold unit_categories; cbn [getitem].
  repeat case_decide; intros [= <-];
    apply (bool_decide_unpack _); vm_compute; reflexivity.
Qed.

(** *** Any entry object *)

Section insert_entry.
Context (rt : runtime).
Implicit Types (entry : pyobj) (h : list pyobj).

Lemma entry_eq_refl entry : entry_eq rt entry entry = true.
Proof.
  destruct entry as [[| | | |text]|items|entries]; cbn;
    try apply py_eq_refl.
  by apply bool_decide_eq_true.
Qed.

Lemma entry_eq_text stored text :
  entry_eq rt stored (PStr text) = true ↔ stored = PStr text.
Proof.
  destruct stored as [[| | | |stored]|items|entries]; cbn;
    try (split; [discriminate | discriminate]).
  rewrite bool_decide_eq_true. split; [by intros -> | by intros [= ->]].
Qed.

Lemma contains_elem_of entry h : entry ∈ h → contains rt h entry = true.
Proof.
  intros Hin. apply existsb_exists. exists entry.
  split; [by apply list_elem_of_In | apply entry_eq_refl].
Qed.

Lemma contains_text text h :
  contains rt h (PStr text) = true ↔ PStr text ∈ h.
Proof.
  split; [|apply contains_elem_of].
  intros (stored & Hin & Heq)%existsb_exists.
  apply entry_eq_text in Heq as ->. by apply list_elem_of_In.
Qed.

Lemma not_contains_not_elem_of entry h :
  contains rt h entry = false → entry ∉ h.
Proof.
  intros Hfalse Hin. apply contains_elem_of in Hin. congruence.
Qed.

Lemma insert_entry_present entry h :
  contains rt h entry = true → insert_entry rt entry h = h.
Proof. intros Hin. unfold insert_entry. by rewrite Hin. Qed.

Lemma insert_entry_fresh entry h :
  contains rt h entry = false → length h < 5 →
  insert_entry rt entry h = entry :: h.
Proof.
  intros Hout Hlen. unfold insert_entry. rewrite Hout.
  by rewrite bool_decide_eq_false_2 by (cbn; lia).
Qed.

Lemma insert_entry_full entry h :
  contains rt h entry = false → 5 ≤ length h →
  insert_entry rt entry h = entry :: take (length h - 1) h.
Proof.
  intros Hout Hlen. unfold insert_entry. rewrite Hout.
  rewrite bool_decide_eq_true_2 by (cbn; lia).
  rewrite removelast_firstn_len. cbn [length Nat.pred].
  destruct h as [|x h]; cbn in *; [lia|].
  by rewrite Nat.sub_0_r.
Qed.

Lemma insert_entry_length entry h :
  length h ≤ 5 → length (insert_entry rt entry h) ≤ 5.
Proof.
  intros Hlen. destruct (contains rt h entry) eqn:Hin.
  - by rewrite insert_entry_present.
  - destruct (decide (length h < 5)).
    + rewrite insert_entry_fresh by done. cbn. lia.
    + rewrite insert_entry_full by (done || lia).
      cbn. rewrite length_take. lia.
Qed.

Lemma insert_entry_NoDup entry h :
  NoDup h → NoDup (insert_entry rt entry h).
Proof.
  intros Hnd. destruct (contains rt h entry) eqn:Hin.
  - by rewrite insert_entry_present.
  - pose proof (not_contains_not_elem_of _ _ Hin) as Hout.
    destruct (decide (length h < 5)).
    + rewrite insert_entry_fresh by done. by apply NoDup_cons.
    + rewrite insert_entry_full by (done || lia).
      apply (sublist_NoDup _ (entry :: h)); [by apply NoDup_cons|].
      apply sublist_skip, sublist_take.
Qed.

(** A new entry on a history of five: it goes in front and the last entry,
    the oldest, is dropped. *)
Lemma insert_entry_evicts entry h oldest :
  length h = 5 → contains rt h entry = false → last h = Some oldest →
  insert_entry rt entry h = entry :: take 4 h ∧ h = take 4 h ++ [oldest].
Proof.
  intros Hlen Hout [front ->]%last_Some.
  rewrite length_app in Hlen. cbn in Hlen.
  rewrite insert_entry_full by (rewrite ?length_app; cbn; done || lia).
  rewrite length_app. cbn.
  replace (length front + 1 - 1) with (length front) by lia.
  replace 4 with (length front) by lia.
  by rewrite take_app_length.
Qed.

(** On a history of text, with a text entry, the update is the one on
    texts. *)
Lemma insert_entry_text text (texts : list str) :
  insert_entry rt (PStr text) (text_entries texts)
  = text_entries (record_history text texts).
Proof.
  assert (PStr text ∈ text_entries texts ↔ text ∈ texts) as Hin.
  { unfold text_entries. rewrite list_elem_of_fmap. split.
    - by intros (text' & [= ->] & Hin).
    - intros Hin. by exists text. }
  destruct (decide (text ∈ texts)) as [Hpresent|Habsent].
  - rewrite record_history_present by done.
    apply insert_entry_present, contains_text. by apply Hin.
  - assert (contains rt (text_entries texts) (PStr text) = false) as Hout.
    { destruct (contains _ _ _) eqn:Hc; [|done].
      apply contains_text, Hin in Hc. contradiction. }
    assert (length (text_entries texts) = length texts) as Hlength
        by apply length_fmap.
    destruct (decide (length texts < 5)).
    + rewrite record_history_fresh by done.
      by rewrite insert_entry_fresh by (done || lia).
    + rewrite record_history_full by (done || lia).
      rewrite insert_entry_full by (done || lia).
      rewrite Hlength. unfold text_entries. by rewrite fmap_cons, fmap_take.
Qed.
End insert_entry.

Lemma history_entry_of_text rt query response :
  history_entry_of rt query (PStr response)
  = Some (PStr (history_entry query response)).
Proof.
  unfold history_entry_of, history_entry. cbn [len mbind option_bind].
  by case_bool_decide.
Qed.

Lemma history_init_history ss : history (init_history ss) = history ss.
Proof. unfold history, init_history. cbn. by destruct (conversion_history ss). Qed.

Lemma history_store_in_history rt ss entry :
  history (store_in_history rt ss entry) = insert_entry rt entry (history ss).
Proof. reflexivity. Qed.

(** The Convert button leaves the selection alone, however the run ends. *)
Lemma convert_pressed_selection rt ss value from_unit' to_unit' name model key
    post how ss' :
  convert_pressed rt ss value from_unit' to_unit' name model key post
  = (how, ss') →
  from_unit ss' = from_unit ss
  ∧ to_unit ss' = to_unit ss
  ∧ current_category ss' = current_category ss.
Proof.
  unfold convert_pressed. destruct (_ && _); [|by intros [= <- <-]].
  destruct (get_conversion_response _ _ _ _ _ _ _) as [response|e];
    [|by intros [= <- <-]].
  destruct (history_entry_of _ _ _); by intros [= <- <-].
Qed.

(** What the button does to the history: nothing, or one entry goes
    through the update of lines 151-154. *)
Lemma convert_pressed_history rt ss value from_unit' to_unit' name model key
    post how ss' :
  convert_pressed rt ss value from_unit' to_unit' name model key post
  = (how, ss') →
  history ss' = history ss
  ∨ ∃ entry, how = Completed ∧ history ss' = insert_entry rt entry (history ss).
Proof.
  unfold convert_pressed. destruct (_ && _); [|intros [= <- <-]; by left].
  destruct (get_conversion_response _ _ _ _ _ _ _) as [response|e];
    [|intros [= <- <-]; by left].
  destruct (history_entry_of _ _ _) as [entry|]; intros [= <- <-].
  - right. by exists entry.
  - left. apply history_init_history.
Qed.

(** A run leaves the history as it is or puts one entry through the update. *)
Lemma run_history ss i how ss' :
  run ss i = Some (how, ss') →
  history ss' = history ss
  ∨ ∃ entry,
      how = Completed
      ∧ history ss' = insert_entry (python i) entry (history ss).
Proof.
  unfold run.
  destruct (run_selection _ _ _ _) as [ss1|] eqn:Hsel; [|done].
  apply run_selection_history in Hsel. cbn [mbind option_bind].
  assert (history ss1 = history ss) as <- by (unfold history; by rewrite Hsel).
  destruct (convert i); [|intros [= <- <-]; by left].
  destruct (from_unit ss1) as [from|]; [|done]. cbn [mbind option_bind].
  destruct (to_unit ss1) as [to|]; [|done]. cbn [mbind option_bind].
  intros [= Hpressed]. by apply convert_pressed_history in Hpressed.
Qed.

Lemma reachable_history ss :
  reachable ss → length (history ss) ≤ 5 ∧ NoDup (history ss).
Proof.
  induction 1 as [|ss i how ss' _ [IHlen IHnd] Hrun].
  - cbn. split; [lia | apply NoDup_nil_2].
  - apply run_history in Hrun as [->|(entry & _ & ->)]; [done|].
    split; [by apply insert_entry_length | by apply insert_entry_NoDup].
Qed.

(** A press on Convert after the selectors have run: the guard of line 135
    passes, and the run ends according to the entry that line 150 makes of
    the response. *)
Lemma run_pressed ss i ss1 from to response :
  run_selection ss (selected_category i) (picked_from i) (picked_to i)
  = Some ss1 →
  from_unit ss1 = Some from →
  to_unit ss1 = Some to →
  convert i = true →
  is_none (value i) = false →
  get_conversion_response (value i) from to (selected_category i)
    (selected_model i) (api_key i) (post i)
  = Ok response →
  truthy from = true ∧ truthy to = true
  ∧ run ss i
    = Some (match history_entry_of (python i) (query (value i) from to)
                    response with
            | Some entry => (Completed, store_in_history (python i) ss1 entry)
            | None => (Aborted, init_history ss1)
            end).
Proof.
  intros Hsel Hfrom Hto Hconvert Hvalue Hresp.
  destruct (run_selection_selection _ _ _ _ _ Hsel)
    as (units & from' & to' & (Hget & _ & Hfrom' & Hfrom_in & Hto' & Hto_in) & _).
  assert (from' = from) as -> by congruence.
  assert (to' = to) as -> by congruence.
  pose proof (unit_categories_labels _ _ Hget) as Hlabels.
  rewrite Forall_forall in Hlabels.
  pose proof (Hlabels _ Hfrom_in) as Htruthy_from.
  pose proof (Hlabels _ Hto_in) as Htruthy_to.
  split_and!; [done | done |].
  unfold run. rewrite Hsel. cbn [mbind option_bind].
  rewrite Hconvert, Hfrom. cbn [mbind option_bind].
  rewrite Hto. cbn [mbind option_bind].
  unfold convert_pressed.
  rewrite Hvalue, Htruthy_from, Htruthy_to. cbn [negb andb].
  by rewrite Hresp.
Qed.

(** Five conversions answered "e1" to "e5" lead from the first session to
    the one whose history holds the five answers, newest first. *)
Lemma full_session_reachable : reachable full_session.
Proof.
  pose proof length_session_reachable as H0.
  pose proof (reachable_run _ (press py"e1") Completed
                (SessionState (Some py"mm") (Some py"cm") (Some py"Length")
                   (Some (text_entries [py"e1"]))) H0 eq_refl) as H1.
  pose proof (reachable_run _ (press py"e2") Completed
                (SessionState (Some py"mm") (Some py"cm") (Some py"Length")
                   (Some (text_entries [py"e2"; py"e1"]))) H1 eq_refl) as H2.
  pose proof (reachable_run _ (press py"e3") Completed
                (SessionState (Some py"mm") (Some py"cm") (Some py"Length")
                   (Some (text_entries [py"e3"; py"e2"; py"e1"]))) H2 eq_refl)
    as H3.
  pose proof (reachable_run _ (press py"e4") Completed
                (SessionState (Some py"mm") (Some py"cm") (Some py"Length")
                   (Some (text_entries [py"e4"; py"e3"; py"e2"; py"e1"])))
                H3 eq_refl) as H4.
  exact (reachable_run _ (press py"e5") Completed full_session H4 eq_refl).
Qed.

(** A conversion answered with a list leaves the list in the history. *)
Example list_entry_reachable :
  reachable (SessionState (Some py"mm") (Some py"cm") (Some py"Length")
               (Some [PList [PInt 1; PInt 2]])).
Proof.
  exact (reachable_run _ (press_with list_post) Completed _
           length_session_reachable eq_refl).
Qed.

(** C6. In every session the user can bring about, whatever the responses
    were and however the runs ended, the history has at most five entries.
    Storing a new entry in a session whose history has five puts it in front
    and drops the last, oldest one; so does every run that converts with
    such an entry. *)
Theorem history_at_most_five :
  (∀ ss, reachable ss → length (history ss) ≤ 5)
  ∧ (∀ rt ss entry oldest,
       length (history ss) = 5 →
       contains rt (history ss) entry = false →
       last (history ss) = Some oldest →
       history (store_in_history rt ss entry) = entry :: take 4 (history ss)
       ∧ history ss = take 4 (history ss) ++ [oldest])
  ∧ (∀ ss i ss1 from to response entry oldest,
       run_selection ss (selected_category i) (picked_from i) (picked_to i)
       = Some ss1 →
       from_unit ss1 = Some from →
       to_unit ss1 = Some to →
       convert i = true →
       is_none (value i) = false →
       get_conversion_response (value i) from to (selected_category i)
         (selected_model i) (api_key i) (post i)
       = Ok response →
       history_entry_of (python i) (query (value i) from to) response
       = Some entry →
       length (history ss) = 5 →
       contains (python i) (history ss) entry = false →
       last (history ss) = Some oldest →
       ∃ ss',
         run ss i = Some (Completed, ss')
         ∧ history ss' = entry :: take 4 (history ss)
         ∧ history ss = take 4 (history ss) ++ [oldest]).
Proof.
  split_and!.
  - intros ss Hss. by apply reachable_history.
  - intros rt ss entry oldest Hlen Hout Hlast.
    rewrite history_store_in_history. by apply insert_entry_evicts.
  - intros ss i ss1 from to response entry oldest
           Hsel Hfrom Hto Hconvert Hvalue Hresp Hentry Hlen Hout Hlast.
    destruct (run_pressed _ _ _ _ _ _ Hsel Hfrom Hto Hconvert Hvalue Hresp)
      as (_ & _ & Hrun).
    rewrite Hentry in Hrun. eexists. split; [exact Hrun|].
    rewrite history_store_in_history.
    assert (history ss1 = history ss) as ->
        by (unfold history; by rewrite (run_selection_history _ _ _ _ _ Hsel)).
    by apply insert_entry_evicts.
Qed.

Lemma history_at_most_five_witness :
  length (history full_session) ≤ 5
  ∧ ∃ ss',
      run full_session (press py"e6") = Some (Completed, ss')
      ∧ history ss' = PStr py"e6" :: take 4 (history full_session)
      ∧ history full_session = take 4 (history full_session) ++ [PStr py"e1"].
Proof.
  destruct history_at_most_five as (Hbound & _ & Hrun). split.
  - apply Hbound, full_session_reachable.
  - apply (Hrun full_session (press py"e6") full_session py"mm" py"cm"
             (PStr py"e6") (PStr py"e6") (PStr py"e1")).
    + vm_compute. reflexivity.
    + reflexivity.
    + reflexivity.
    + reflexivity.
    + reflexivity.
    + vm_compute. reflexivity.
    + vm_compute. reflexivity.
    + vm_compute. reflexivity.
    + vm_compute. reflexivity.
    + vm_compute. reflexivity.
Defined.

(** C7. In every session the user can bring about, whatever the responses
    were and however the runs ended, no entry occurs twice in the history.
    When the entry of a conversion is a string that is already in the
    history, at whatever position, nothing is inserted and the history stays
    as it is: for the update of the session, and for every run that converts
    with such an entry. *)
Theorem history_no_duplicates :
  (∀ ss, reachable ss → NoDup (history ss))
  ∧ (∀ rt ss text,
       PStr text ∈ history ss →
       history (store_in_history rt ss (PStr text)) = history ss)
  ∧ (∀ ss i ss1 from to response text,
       run_selection ss (selected_category i) (picked_from i) (picked_to i)
       = Some ss1 →
       from_unit ss1 = Some from →
       to_unit ss1 = Some to →
       convert i = true →
       is_none (value i) = false →
       get_conversion_response (value i) from to (selected_category i)
         (selected_model i) (api_key i) (post i)
       = Ok response →
       history_entry_of (python i) (query (value i) from to) response
       = Some (PStr text) →
       PStr text ∈ history ss →
       ∃ ss', run ss i = Some (Completed, ss') ∧ history ss' = history ss).
Proof.
  split_and!.
  - intros ss Hss. by apply reachable_history.
  - intros rt ss text Hin. rewrite history_store_in_history.
    by apply insert_entry_present, contains_text.
  - intros ss i ss1 from to response text
           Hsel Hfrom Hto Hconvert Hvalue Hresp Hentry Hin.
    destruct (run_pressed _ _ _ _ _ _ Hsel Hfrom Hto Hconvert Hvalue Hresp)
      as (_ & _ & Hrun).
    rewrite Hentry in Hrun. eexists. split; [exact Hrun|].
    rewrite history_store_in_history.
    assert (history ss1 = history ss) as ->
        by (unfold history; by rewrite (run_selection_history _ _ _ _ _ Hsel)).
    by apply insert_entry_present, contains_text.
Qed.

Lemma history_no_duplicates_witness :
  NoDup (history full_session)
  ∧ ∃ ss',
      run full_session (press py"e3") = Some (Completed, ss')
      ∧ history ss' = history full_session.
Proof.
  destruct history_no_duplicates as (Hnodup & _ & Hrun). split.
  - apply Hnodup, full_session_reachable.
  - apply (Hrun full_session (press py"e3") full_session py"mm" py"cm"
             (PStr py"e3") py"e3").
    + vm_compute. reflexivity.
    + reflexivity.
    + reflexivity.
    + reflexivity.
    + reflexivity.
    + vm_compute. reflexivity.
    + vm_compute. reflexivity.
    + apply list_elem_of_In. vm_compute. tauto.
Defined.

(** ** The entry recorded for a conversion *)

Lemma history_entry_long query response :
  100 < length response →
  history_entry query response
  = query ++ py" → " ++ take 100 response ++ py"...".
Proof. intros Hlen. unfold history_entry. by rewrite bool_decide_eq_true_2. Qed.

Lemma history_entry_short query response :
  length response ≤ 100 → history_entry query response = response.
Proof.
  intros Hlen. unfold history_entry. by rewrite bool_decide_eq_false_2 by lia.
Qed.

(** C8, at the failing input: for value 5.0 from "m" to "ft" and the
    response "5 meters is about 16.4 feet." (28 characters) the entry that
    is recorded is the response alone, without the query "5.0 m to ft". *)
Theorem history_entry_short_response :
  let q := query (SFloat py"5.0") py"m" py"ft" in
  q = py"5.0 m to ft"
  ∧ length short_answer = 28
  ∧ history_entry q short_answer = short_answer
  ∧ history_entry q short_answer ≠ q ++ py" → " ++ short_answer
  ∧ ∀ rt,
      convert_pressed rt meters_session (SFloat py"5.0") py"m" py"ft" py"Length"
        py"mistralai/Mistral-7B-Instruct-v0.2" None
        (λ _, Ok (PList [PDict [(py"generated_text", PStr short_answer)]]))
      = (Completed,
         SessionState (Some py"m") (Some py"ft") (Some py"Length")
           (Some [PStr short_answer])).
Proof.
  intros q. split_and!.
  - vm_compute. reflexivity.
  - vm_compute. reflexivity.
  - vm_compute. reflexivity.
  - vm_compute. discriminate.
  - intros rt. vm_compute. reflexivity.
Qed.

(** * Further properties *)

(** ** One run of the selectors *)

(** The units are initialised once per run: running the selectors on the
    initialised session gives the same result. *)
Lemma run_selection_init ss name ss1 picked_from picked_to :
  init_units ss name = Some ss1 →
  run_selection ss name picked_from picked_to
  = run_selection ss1 name picked_from picked_to.
Proof.
  intros Hinit. destruct (init_units_current _ _ _ Hinit) as [Hfrom Hcur].
  unfold run_selection. by rewrite Hinit, (init_units_same ss1 name).
Qed.

Lemma init_units_reset ss name units :
  getitem unit_categories name = Some units →
  from_unit ss = None ∨ current_category ss ≠ Some name →
  ∃ first second,
    init_units ss name
    = Some {| from_unit := Some first; to_unit := Some second;
              current_category := Some name;
              conversion_history := conversion_history ss |}
    ∧ units !! 0 = Some first ∧ units !! 1 = Some second.
Proof.
  intros Hget Hreset.
  destruct (unit_categories_wf _ _ Hget) as [_ Hlen].
  destruct units as [|first [|second rest]]; cbn in Hlen; try lia.
  exists first, second. split; [|done].
  unfold init_units.
  replace (bool_decide (from_unit ss = None)
           || bool_decide (current_category ss ≠ Some name)) with true.
  - rewrite Hget. reflexivity.
  - symmetry. apply orb_true_iff.
    destruct Hreset; [left | right]; by apply bool_decide_eq_true.
Qed.

(** Within the stored category, each selector returns the pick, or the
    stored unit while it shows its default. *)
Lemma run_selection_same_category ss name units from to picked_from picked_to :
  selection ss name units from to →
  (∀ f, picked_from = Some f → f ∈ units) →
  (∀ t, picked_to = Some t → t ∈ units) →
  run_selection ss name picked_from picked_to
  = Some {| from_unit := Some (default from picked_from);
            to_unit := Some (default to picked_to);
            current_category := Some name;
            conversion_history := conversion_history ss |}.
Proof.
  intros (Hget & Hcur & Hfrom & Hfrom_in & Hto & Hto_in) Hpf Hpt.
  destruct (index_elem_of _ _ Hfrom_in) as (i & Hi & Hlook).
  unfold run_selection.
  rewrite init_units_same by (rewrite ?Hfrom; eauto).
  cbn [mbind option_bind]. rewrite Hget. cbn [mbind option_bind].
  rewrite Hfrom. cbn [mbind option_bind]. rewrite Hi. cbn [mbind option_bind].
  assert (selectbox units i picked_from = Some (default from picked_from)) as ->.
  { destruct picked_from as [f|]; cbn [default].
    - by apply selectbox_picked, Hpf.
    - by rewrite selectbox_default. }
  cbn [mbind option_bind]. rewrite Hto. cbn [mbind option_bind].
  set (new_from := default from picked_from).
  assert (to ∈ to_options units new_from) as Hto_opt
      by (apply to_options_elem_of; auto).
  unfold default_index. rewrite !bool_decide_eq_true_2 by done.
  destruct (index_elem_of _ _ Hto_opt) as (j & Hj & Hlook_to).
  rewrite Hj. cbn [mbind option_bind].
  assert (selectbox (to_options units new_from) j picked_to
          = Some (default to picked_to)) as ->.
  { destruct picked_to as [t|]; cbn [default].
    - apply selectbox_picked, to_options_elem_of. left. by apply Hpt.
    - by rewrite selectbox_default. }
  cbn [mbind option_bind]. by rewrite Hcur.
Qed.

Lemma selection_eta ss name units from to :
  selection ss name units from to →
  ss = {| from_unit := Some from; to_unit := Some to;
          current_category := Some name;
          conversion_history := conversion_history ss |}.
Proof.
  intros (_ & Hcur & Hfrom & _ & Hto & _). destruct ss; cbn in *. congruence.
Qed.

Lemma run_consistent ss i how ss' : run ss i = Some (how, ss') → consistent ss'.
Proof.
  unfold run.
  destruct (run_selection _ _ _ _) as [ss1|] eqn:Hsel; [|done].
  apply run_selection_selection in Hsel as (units & from & to & Hsel & _).
  cbn [mbind option_bind].
  destruct (convert i);
    [|intros [= <- <-]; by exists (selected_category i), units, from, to].
  destruct (from_unit ss1) as [f|]; [|done]. cbn [mbind option_bind].
  destruct (to_unit ss1) as [t|]; [|done]. cbn [mbind option_bind].
  intros [= (Hf & Ht & Hc)%convert_pressed_selection].
  exists (selected_category i), units, from, to.
  destruct Hsel as (? & ? & ? & ? & ? & ?).
  split_and!; try done; congruence.
Qed.

Lemma reachable_empty_or_consistent ss :
  reachable ss → ss = empty_session ∨ consistent ss.
Proof.
  destruct 1 as [|ss i how ss' _ Hrun]; [by left|].
  right. by apply run_consistent in Hrun.
Qed.

(** Initialising the units of a fresh or consistent session for a category
    of the table gives a selection within that category. *)
Lemma init_units_selection ss name units :
  ss = empty_session ∨ consistent ss →
  getitem unit_categories name = Some units →
  ∃ ss1 from to,
    init_units ss name = Some ss1
    ∧ selection ss1 name units from to
    ∧ conversion_history ss1 = conversion_history ss.
Proof.
  intros Hss Hget.
  destruct (from_unit ss) as [stored|] eqn:Hfrom;
    [destruct (decide (current_category ss = Some name)) as [Hcur|Hcur]|].
  - destruct Hss as [->|(name' & units' & from & to & Hsel)]; [done|].
    assert (name' = name) as ->
        by (destruct Hsel as (_ & Hcur' & _); congruence).
    assert (units' = units) as ->
        by (destruct Hsel as (Hget' & _); congruence).
    exists ss, from, to. split_and!; [|done|done].
    apply init_units_same; [by rewrite Hfrom | done].
  - destruct (init_units_reset ss name units Hget) as (first & second & -> & H0 & H1);
      [by right|].
    eexists _, first, second. split_and!; [done| |done].
    split_and!; try done; by eapply list_elem_of_lookup_2.
  - destruct (init_units_reset ss name units Hget) as (first & second & -> & H0 & H1);
      [by left|].
    eexists _, first, second. split_and!; [done| |done].
    split_and!; try done; by eapply list_elem_of_lookup_2.
Qed.

(** X1. Every session a user can bring about is the fresh one or holds a
    consistent selection: the stored category is a category of the table and
    the stored "from" and "to" units are both units of it. *)
Theorem reachable_consistent ss :
  reachable ss → ss = empty_session ∨ consistent ss.
Proof. apply reachable_empty_or_consistent. Qed.

Lemma reachable_consistent_witness :
  length_session = empty_session ∨ consistent length_session.
Proof. apply reachable_consistent, length_session_reachable. Defined.

(** X2. In a reachable session the selectors never abort for a category of
    the table and picks among its units: no [KeyError], [ValueError] or
    [IndexError] is raised, the picks are what is stored, and the stored
    units are units of the category. *)
Theorem run_selection_succeeds ss name units picked_from picked_to :
  reachable ss →
  getitem unit_categories name = Some units →
  (∀ f, picked_from = Some f → f ∈ units) →
  (∀ t, picked_to = Some t → t ∈ units) →
  ∃ from to,
    run_selection ss name picked_from picked_to
    = Some {| from_unit := Some from; to_unit := Some to;
              current_category := Some name;
              conversion_history := conversion_history ss |}
    ∧ from ∈ units ∧ to ∈ units
    ∧ (∀ f, picked_from = Some f → from = f)
    ∧ (∀ t, picked_to = Some t → to = t).
Proof.
  intros Hss%reachable_empty_or_consistent Hget Hpf Hpt.
  destruct (init_units_selection ss name units Hss Hget)
    as (ss1 & from & to & Hinit & Hsel & Hhist).
  rewrite (run_selection_init _ _ _ _ _ Hinit).
  rewrite (run_selection_same_category _ _ _ _ _ _ _ Hsel Hpf Hpt), Hhist.
  exists (default from picked_from), (default to picked_to).
  destruct Hsel as (_ & _ & _ & Hfrom_in & _ & Hto_in).
  split_and!; [done | | | |].
  - destruct picked_from; cbn; auto.
  - destruct picked_to; cbn; auto.
  - by intros f ->.
  - by intros t ->.
Qed.

Lemma run_selection_succeeds_witness :
  ∃ from to,
    run_selection length_session py"Temperature" (Some py"K") None
    = Some {| from_unit := Some from; to_unit := Some to;
              current_category := Some py"Temperature";
              conversion_history := None |}
    ∧ from ∈ [py"°C"; py"°F"; py"K"] ∧ to ∈ [py"°C"; py"°F"; py"K"]
    ∧ (∀ f, Some py"K" = Some f → from = f)
    ∧ (∀ t, @None str = Some t → to = t).
Proof.
  apply (run_selection_succeeds length_session py"Temperature"
           [py"°C"; py"°F"; py"K"] (Some py"K") None).
  - apply length_session_reachable.
  - vm_compute. reflexivity.
  - intros f [= <-]. apply (bool_decide_unpack _). vm_compute. reflexivity.
  - intros t [=].
Defined.

(** X3. A run in which the user touches no selector leaves a consistent
    session exactly as it is: both selectors default to the stored units. *)
Theorem run_selection_stable ss name units from to :
  selection ss name units from to →
  run_selection ss name None None = Some ss.
Proof.
  intros Hsel.
  rewrite (run_selection_same_category _ _ _ _ _ None None Hsel) by done.
  cbn [default]. by rewrite <- (selection_eta _ _ _ _ _ Hsel).
Qed.

Lemma run_selection_stable_witness :
  run_selection length_session py"Length" None None = Some length_session.
Proof.
  apply (run_selection_stable length_session py"Length" length_units
           py"mm" py"cm").
  split_and!; try reflexivity;
    apply (bool_decide_unpack _); vm_compute; reflexivity.
Defined.

(** X4. In a consistent session, picking a "from" unit of the category
    stores it and keeps the stored "to" unit, also when the two are then
    equal; picking a "to" unit of the category stores it and keeps the
    stored "from" unit, also when the pick is the "from" unit itself. *)
Theorem select_units_store ss name units from to :
  selection ss name units from to →
  (∀ u, u ∈ units →
        selectFromUnit ss name u
        = Some {| from_unit := Some u; to_unit := Some to;
                  current_category := Some name;
                  conversion_history := conversion_history ss |})
  ∧ (∀ t, t ∈ units →
          selectToUnit ss name t
          = Some {| from_unit := Some from; to_unit := Some t;
                    current_category := Some name;
                    conversion_history := conversion_history ss |}).
Proof.
  intros Hsel. split.
  - intros u Hu. unfold selectFromUnit.
    rewrite (run_selection_same_category _ _ _ _ _ (Some u) None Hsel); [done| |done].
    by intros f [= <-].
  - intros t Ht. unfold selectToUnit.
    destruct Hsel as (Hget & Hcur & Hfrom & Hfrom_in & Hto & Hto_in).
    rewrite Hfrom. cbn [mbind option_bind].
    rewrite (run_selection_same_category ss name units from to
               (Some from) (Some t)); [done | by split_and! | |].
    + by intros f [= <-].
    + by intros t' [= <-].
Qed.

Lemma select_units_store_witness :
  (∀ u, u ∈ length_units →
        selectFromUnit length_session py"Length" u
        = Some {| from_unit := Some u; to_unit := Some py"cm";
                  current_category := Some py"Length";
                  conversion_history := None |})
  ∧ (∀ t, t ∈ length_units →
          selectToUnit length_session py"Length" t
          = Some {| from_unit := Some py"mm"; to_unit := Some t;
                    current_category := Some py"Length";
                    conversion_history := None |}).
Proof.
  apply (select_units_store length_session py"Length" length_units
           py"mm" py"cm").
  split_and!; try reflexivity;
    apply (bool_decide_unpack _); vm_compute; reflexivity.
Defined.

(** X5. When the category selector shows a category of the table other than
    the stored one (or the session is fresh) and no unit is picked, the run
    ends in the reset state: the selectors default to the first and the
    second unit that the initialisation stored. *)
Theorem run_selection_switch ss name units :
  getitem unit_categories name = Some units →
  from_unit ss = None ∨ current_category ss ≠ Some name →
  ∃ first second,
    units !! 0 = Some first ∧ units !! 1 = Some second
    ∧ run_selection ss name None None
      = Some {| from_unit := Some first; to_unit := Some second;
                current_category := Some name;
                conversion_history := conversion_history ss |}
    ∧ run_selection ss name None None = selectCategory ss name.
Proof.
  intros Hget Hreset.
  destruct (init_units_reset ss name units Hget Hreset)
    as (first & second & Hinit & H0 & H1).
  exists first, second. unfold selectCategory.
  rewrite (run_selection_init _ _ _ _ _ Hinit), Hinit.
  rewrite (run_selection_stable _ name units first second); [done|].
  split_and!; try done; by eapply list_elem_of_lookup_2.
Qed.

Lemma run_selection_switch_witness :
  ∃ first second,
    [py"°C"; py"°F"; py"K"] !! 0 = Some first
    ∧ [py"°C"; py"°F"; py"K"] !! 1 = Some second
    ∧ run_selection length_session py"Temperature" None None
      = Some {| from_unit := Some first; to_unit := Some second;
                current_category := Some py"Temperature";
                conversion_history := None |}
    ∧ run_selection length_session py"Temperature" None None
      = selectCategory length_session py"Temperature".
Proof.
  apply (run_selection_switch length_session py"Temperature"
           [py"°C"; py"°F"; py"K"]).
  - vm_compute. reflexivity.
  - right. vm_compute. discriminate.
Defined.

(** X6. A category name that is not a key of the table aborts the run
    ([KeyError]), whatever the session and the picks. *)
Theorem run_selection_unknown_category ss name picked_from picked_to :
  getitem unit_categories name = None →
  run_selection ss name picked_from picked_to = None.
Proof.
  intros Hget. unfold run_selection.
  destruct (init_units ss name); cbn [mbind option_bind]; [|done].
  by rewrite Hget.
Qed.

Lemma run_selection_unknown_category_witness :
  run_selection length_session py"Mass" None None = None.
Proof.
  apply (run_selection_unknown_category length_session py"Mass" None None).
  vm_compute. reflexivity.
Defined.

(** ** More on the candidates *)

(** X7. For a duplicate-free list of units and a "from" unit of it, the
    candidates are the units in another order: the other units, in the
    order they have in the list, and then the "from" unit.  For a "from"
    unit that is not in the list, the candidates are the whole list followed
    by it. *)
Theorem to_options_permutation units u :
  NoDup units →
  (u ∈ units →
     to_options units u ≡ₚ units
     ∧ last (to_options units u) = Some u
     ∧ ∃ others,
         to_options units u = others ++ [u]
         ∧ others `sublist_of` units
         ∧ u ∉ others)
  ∧ (u ∉ units → to_options units u = units ++ [u]).
Proof.
  intros Hnd. split.
  - intros Hu. split_and!.
    + apply NoDup_Permutation; [by apply to_options_NoDup | done |].
      intros x. rewrite to_options_elem_of. split; [|auto].
      by intros [?| ->].
    + unfold to_options. apply last_snoc.
    + exists (filter (λ x, x ≠ u) units). split_and!.
      * reflexivity.
      * apply sublist_filter.
      * by intros [Hne _]%list_elem_of_filter.
  - intros Hu. unfold to_options. by rewrite filter_ne_absent.
Qed.

Lemma to_options_permutation_witness :
  to_options length_units py"km" ≡ₚ length_units
  ∧ last (to_options length_units py"km") = Some py"km"
  ∧ ∃ others,
      to_options length_units py"km" = others ++ [py"km"]
      ∧ others `sublist_of` length_units
      ∧ py"km" ∉ others.
Proof.
  apply (to_options_permutation length_units py"km").
  - apply (bool_decide_unpack _). vm_compute. reflexivity.
  - apply (bool_decide_unpack _). vm_compute. reflexivity.
Defined.

(** ** More on the dispatcher *)

Lemma get_without_method x key default :
  (∀ entries, x ≠ PDict entries) →
  get x key default
  = Raise (Exception py"AttributeError"
             (py"'" ++ type_name x ++ py"' object has no attribute 'get'")).
Proof.
  intros Hx. destruct x as [s|items|entries]; [reflexivity | reflexivity |].
  by destruct (Hx entries).
Qed.

(** X8. When the decoded response is a list whose element 0 is not a dict,
    calling [get] on it raises [AttributeError]; the dispatcher returns the
    apologetic string naming the type of that element. *)
Theorem get_conversion_response_element_without_get
    value from_unit to_unit category model api_key (post : http) x rest :
  post (build_request value from_unit to_unit category model api_key)
  = Ok (PList (x :: rest)) →
  (∀ entries, x ≠ PDict entries) →
  get_conversion_response value from_unit to_unit category model api_key post
  = Ok (PStr (sorry_prefix ++ py"'" ++ type_name x
              ++ py"' object has no attribute 'get'")).
Proof.
  intros Hpost Hx.
  rewrite (response_decoded _ _ _ _ _ _ _ _ Hpost).
  change (result_text (PList (x :: rest)))
    with (get x py"generated_text" (PStr py"")).
  by rewrite (get_without_method x _ _ Hx).
Qed.

Lemma get_conversion_response_element_without_get_witness :
  get_conversion_response (SInt 5) py"m" py"ft" py"Length"
    py"mistralai/Mistral-7B-Instruct-v0.2" None
    (λ _, Ok (PList [PStr py"Model is loading"]))
  = Ok (PStr py"Sorry, I encountered an error: 'str' object has no attribute 'get'").
Proof.
  etransitivity.
  - apply (get_conversion_response_element_without_get (SInt 5) py"m" py"ft"
             py"Length" py"mistralai/Mistral-7B-Instruct-v0.2" None
             (λ _, Ok (PList [PStr py"Model is loading"]))
             (PStr py"Model is loading") []).
    + reflexivity.
    + intros entries. discriminate.
  - vm_compute. reflexivity.
Defined.

Lemma result_text_non_text response_json r :
  result_text response_json = Ok r →
  (∀ s, r ≠ PStr s) →
  ∃ entries,
    (response_json = PDict entries
     ∨ ∃ rest, response_json = PList (PDict entries :: rest))
    ∧ getitem entries py"generated_text" = Some r.
Proof.
  intros Htext Hr.
  assert (∀ entries,
            Ok (dict_get entries py"generated_text" (PStr py"")) = Ok r →
            getitem entries py"generated_text" = Some r) as Hfield.
  { intros entries. unfold dict_get.
    destruct (getitem entries _) as [v|]; intros [= <-]; [done|].
    by destruct (Hr py""). }
  destruct response_json as [x|[|first rest]|entries].
  - injection Htext as <-. by destruct (Hr (str_of x)).
  - discriminate Htext.
  - change (get first py"generated_text" (PStr py"") = Ok r) in Htext.
    destruct first as [x|items|entries]; [discriminate Htext ..|].
    exists entries. split; [right; by exists rest|]. by apply Hfield.
  - exists entries. split; [by left|]. by apply Hfield.
Qed.

(** X9. The dispatcher does not convert the [generated_text] field to text.
    Whatever the field of the decoded dict, or of the dict at element 0 of
    the decoded list, holds is the result as it is, a number or a list
    included; and a result that is not a [str] can only come about in this
    way: in every other case, failures included, the result is a [str]. *)
Theorem get_conversion_response_non_text
    value from_unit to_unit category model api_key (post : http) :
  (∀ response_json entries field,
     post (build_request value from_unit to_unit category model api_key)
     = Ok response_json →
     response_json = PDict entries
     ∨ (∃ rest, response_json = PList (PDict entries :: rest)) →
     getitem entries py"generated_text" = Some field →
     get_conversion_response value from_unit to_unit category model api_key post
     = Ok field)
  ∧ (∀ r,
       get_conversion_response value from_unit to_unit category model api_key
         post
       = Ok r →
       (∀ s, r ≠ PStr s) →
       ∃ response_json entries,
         post (build_request value from_unit to_unit category model api_key)
         = Ok response_json
         ∧ (response_json = PDict entries
            ∨ ∃ rest, response_json = PList (PDict entries :: rest))
         ∧ getitem entries py"generated_text" = Some r).
Proof.
  split.
  - intros response_json entries field Hpost Hshape Hfield.
    rewrite (response_decoded _ _ _ _ _ _ _ _ Hpost).
    assert (result_text response_json
            = Ok (dict_get entries py"generated_text" (PStr py""))) as ->
        by (destruct Hshape as [->|[rest ->]]; reflexivity).
    unfold dict_get. by rewrite Hfield.
  - intros r Hresp Hr.
    destruct (post (build_request value from_unit to_unit category model api_key))
      as [response_json|e] eqn:Hpost.
    + rewrite (response_decoded _ _ _ _ _ _ _ _ Hpost) in Hresp.
      destruct (result_text response_json) as [text|e] eqn:Htext.
      * injection Hresp as ->.
        destruct (result_text_non_text _ _ Htext Hr)
          as (entries & Hshape & Hfield).
        by exists response_json, entries.
      * injection Hresp as <-. by destruct (Hr (sorry_prefix ++ exn_str e)).
    + rewrite (response_raised _ _ _ _ _ _ _ e) in Hresp
        by (unfold try_body; by rewrite Hpost).
      injection Hresp as <-. by destruct (Hr (sorry_prefix ++ exn_str e)).
Qed.

Lemma get_conversion_response_non_text_witness :
  get_conversion_response (SInt 5) py"m" py"ft" py"Length"
    py"mistralai/Mistral-7B-Instruct-v0.2" None number_post
  = Ok (PInt 42)
  ∧ ∃ response_json entries,
      number_post (build_request (SInt 5) py"m" py"ft" py"Length"
                     py"mistralai/Mistral-7B-Instruct-v0.2" None)
      = Ok response_json
      ∧ (response_json = PDict entries
         ∨ ∃ rest, response_json = PList (PDict entries :: rest))
      ∧ getitem entries py"generated_text" = Some (PInt 42).
Proof.
  destruct (get_conversion_response_non_text (SInt 5) py"m" py"ft" py"Length"
              py"mistralai/Mistral-7B-Instruct-v0.2" None number_post)
    as [Hfield Honly].
  assert (get_conversion_response (SInt 5) py"m" py"ft" py"Length"
            py"mistralai/Mistral-7B-Instruct-v0.2" None number_post
          = Ok (PInt 42)) as Hresult.
  { apply (Hfield (PDict [(py"generated_text", PInt 42)])
             [(py"generated_text", PInt 42)]).
    - reflexivity.
    - by left.
    - vm_compute. reflexivity. }
  split; [exact Hresult|].
  apply (Honly (PInt 42) Hresult). intros s. discriminate.
Defined.

(** X10. Whatever the arguments, the prompt contains the sentence "Please
    convert <query> in the category of <category>.", where <query> is the
    very text "<value> <from> to <to>" that heads a history entry. *)
Theorem prompt_embeds_query value from_unit to_unit category :
  substring (py"    Please convert " ++ query value from_unit to_unit
             ++ py" in the category of " ++ category ++ py".")
            (prompt value from_unit to_unit category).
Proof.
  exists (nl ++ py"    You are a helpful and friendly unit converter assistant. "
          ++ nl),
         (nl ++ py"    Respond in a conversational tone as if speaking to a friend. "
          ++ nl ++ py"    Include the numeric result and a brief explanation of how the conversion works."
          ++ nl ++ py"    ").
  unfold prompt, query. by rewrite <- !app_assoc.
Qed.

(** ** More on the history *)

Lemma record_history_fresh_take entry (h : list str) :
  entry ∉ h → length h ≤ 5 → record_history entry h = take 5 (entry :: h).
Proof.
  intros Hout Hlen. destruct (decide (length h < 5)).
  - rewrite record_history_fresh by done.
    by rewrite take_ge by (cbn; lia).
  - rewrite record_history_full by (done || lia).
    cbn. by replace (length h - 1) with 4 by lia.
Qed.

(** X11. Recording an entry that is not yet in a history of at most five
    entries gives the first five of the entry followed by the history: the
    entries move back by one position and a fifth one, if any, is dropped. *)
Theorem record_history_take entry (h : list str) :
  entry ∉ h → length h ≤ 5 →
  record_history entry h = take 5 (entry :: h)
  ∧ record_history entry h !! 0 = Some entry
  ∧ ∀ i, i < 4 → record_history entry h !! S i = h !! i.
Proof.
  intros Hout Hlen.
  rewrite record_history_fresh_take by done.
  split_and!; [done | done |].
  intros i Hi. change (take 4 h !! i = h !! i). by apply lookup_take_lt.
Qed.

Lemma record_history_take_witness :
  record_history py"e6" five_entries = take 5 (py"e6" :: five_entries)
  ∧ record_history py"e6" five_entries !! 0 = Some py"e6"
  ∧ ∀ i, i < 4 → record_history py"e6" five_entries !! S i = five_entries !! i.
Proof.
  apply (record_history_take py"e6" five_entries).
  - apply (bool_decide_unpack _). vm_compute. reflexivity.
  - vm_compute. lia.
Defined.

Lemma record_history_elem_of entry (h : list str) :
  entry ∈ record_history entry h.
Proof.
  destruct (decide (entry ∈ h)) as [Hin|Hout].
  - by rewrite record_history_present.
  - destruct (decide (length h < 5)).
    + rewrite record_history_fresh by done. apply list_elem_of_here.
    + rewrite record_history_full by (done || lia). apply list_elem_of_here.
Qed.

(** X12. After a conversion its entry is in the history, whatever the
    history was; the history holds nothing but that entry and former
    entries, in their former order. *)
Theorem record_history_member entry (h : list str) :
  entry ∈ record_history entry h
  ∧ record_history entry h `sublist_of` entry :: h.
Proof.
  split; [apply record_history_elem_of|].
  destruct (decide (entry ∈ h)) as [Hin|Hout].
  - rewrite record_history_present by done. by apply sublist_cons.
  - destruct (decide (length h < 5)).
    + by rewrite record_history_fresh.
    + rewrite record_history_full by (done || lia).
      apply sublist_skip, sublist_take.
Qed.



(** X14. The entry of a response of at most 100 characters does not depend
    on the query: a second conversion that gets the same such response, for
    whatever value and units, leaves the history as the first one left it. *)
Theorem same_short_response_recorded_once (q1 q2 response : str) (h : list str) :
  length response ≤ 100 →
  history_entry q1 response = history_entry q2 response
  ∧ record_history (history_entry q2 response)
      (record_history (history_entry q1 response) h)
    = record_history (history_entry q1 response) h.
Proof.
  intros Hlen. rewrite !history_entry_short by done.
  split; [done|]. apply record_history_present, record_history_elem_of.
Qed.

Lemma same_short_response_recorded_once_witness :
  history_entry py"5.0 m to ft" short_answer
  = history_entry py"2.0 kg to lb" short_answer
  ∧ record_history (history_entry py"2.0 kg to lb" short_answer)
      (record_history (history_entry py"5.0 m to ft" short_answer) five_entries)
    = record_history (history_entry py"5.0 m to ft" short_answer) five_entries.
Proof.
  apply (same_short_response_recorded_once py"5.0 m to ft" py"2.0 kg to lb"
           short_answer five_entries).
  vm_compute. lia.
Defined.

(** ** Selectors and button together *)

(** X15. The selectors never touch the history, and the Convert button
    never changes the stored category or units, however the run ends. *)
Theorem selectors_and_button_frame :
  (∀ ss name picked_from picked_to ss',
     run_selection ss name picked_from picked_to = Some ss' →
     conversion_history ss' = conversion_history ss)
  ∧ (∀ rt ss value from to name model key post how ss',
       convert_pressed rt ss value from to name model key post = (how, ss') →
       from_unit ss' = from_unit ss
       ∧ to_unit ss' = to_unit ss
       ∧ current_category ss' = current_category ss).
Proof.
  split.
  - apply run_selection_history.
  - apply convert_pressed_selection.
Qed.

Lemma selectors_and_button_frame_witness :
  conversion_history
    (SessionState (Some py"km") (Some py"cm") (Some py"Length")
       (Some (text_entries five_entries)))
  = Some (text_entries five_entries)
  ∧ from_unit (SessionState (Some py"mm") (Some py"cm") (Some py"Length")
                 (Some [PStr short_answer]))
    = Some py"mm".
Proof.
  destruct selectors_and_button_frame as [Hselect Hbutton]. split.
  - apply (Hselect full_session py"Length" (Some py"km") None).
    vm_compute. reflexivity.
  - apply (Hbutton plain_runtime length_session (SFloat py"5.0") py"m" py"ft"
             py"Length" py"mistralai/Mistral-7B-Instruct-v0.2" None short_post
             Completed).
    vm_compute. reflexivity.
Defined.



(** X20. When the [generated_text] the dispatcher returns is [None], a
    bool or a number, [len] raises at line 150 and stops the run: nothing is
    recorded, the selection is what the selectors left, and the history is
    the one before the run, created empty by line 148 if there was none. *)
Theorem run_response_without_length ss i ss1 from to x :
  run_selection ss (selected_category i) (picked_from i) (picked_to i)
  = Some ss1 →
  from_unit ss1 = Some from →
  to_unit ss1 = Some to →
  convert i = true →
  is_none (value i) = false →
  get_conversion_response (value i) from to (selected_category i)
    (selected_model i) (api_key i) (post i)
  = Ok (PScalar x) →
  (∀ text, x ≠ SStr text) →
  run ss i = Some (Aborted, init_history ss1)
  ∧ conversion_history (init_history ss1) = Some (history ss)
  ∧ from_unit (init_history ss1) = Some from
  ∧ to_unit (init_history ss1) = Some to.
Proof.
  intros Hsel Hfrom Hto Hconvert Hvalue Hresp Hx.
  destruct (run_pressed _ _ _ _ _ _ Hsel Hfrom Hto Hconvert Hvalue Hresp)
    as (_ & _ & Hrun).
  assert (history_entry_of (python i) (query (value i) from to) (PScalar x)
          = None) as Hentry.
  { destruct x as [| | | |text]; try reflexivity. by destruct (Hx text). }
  rewrite Hentry in Hrun. split_and!; [done | | done | done].
  unfold init_history, history. cbn.
  by rewrite (run_selection_history _ _ _ _ _ Hsel).
Qed.

Lemma run_response_without_length_witness :
  run length_session (press_with number_post)
  = Some (Aborted, init_history length_session)
  ∧ conversion_history (init_history length_session)
    = Some (history length_session)
  ∧ from_unit (init_history length_session) = Some py"mm"
  ∧ to_unit (init_history length_session) = Some py"cm".
Proof.
  apply (run_response_without_length length_session (press_with number_post)
           length_session py"mm" py"cm" (SInt 42)).
  - vm_compute. reflexivity.
  - reflexivity.
  - reflexivity.
  - reflexivity.
  - reflexivity.
  - vm_compute. reflexivity.
  - intros text. discriminate.
Defined.

(** X21. When the response has a length of at most 100 (characters of a
    [str], items of a list, keys of a dict), the entry that goes through the
    history update is the response object itself, whatever its type: a list
    or a dict in the [generated_text] field ends up in the history as a list
    or a dict. *)
Theorem run_short_response_stored ss i ss1 from to response n :
  run_selection ss (selected_category i) (picked_from i) (picked_to i)
  = Some ss1 →
  from_unit ss1 = Some from →
  to_unit ss1 = Some to →
  convert i = true →
  is_none (value i) = false →
  get_conversion_response (value i) from to (selected_category i)
    (selected_model i) (api_key i) (post i)
  = Ok response →
  len response = Some n →
  n ≤ 100 →
  run ss i = Some (Completed, store_in_history (python i) ss1 response)
  ∧ (contains (python i) (history ss) response = false →
     history (store_in_history (python i) ss1 response) !! 0 = Some response).
Proof.
  intros Hsel Hfrom Hto Hconvert Hvalue Hresp Hlen Hn.
  destruct (run_pressed _ _ _ _ _ _ Hsel Hfrom Hto Hconvert Hvalue Hresp)
    as (_ & _ & Hrun).
  assert (history_entry_of (python i) (query (value i) from to) response
          = Some response) as Hentry.
  { unfold history_entry_of. rewrite Hlen. cbn [mbind option_bind].
    by rewrite bool_decide_eq_false_2 by lia. }
  rewrite Hentry in Hrun. split; [done|].
  intros Hout. rewrite history_store_in_history.
  assert (history ss1 = history ss) as ->
      by (unfold history; by rewrite (run_selection_history _ _ _ _ _ Hsel)).
  destruct (decide (length (history ss) < 5)).
  - by rewrite insert_entry_fresh.
  - by rewrite insert_entry_full by (done || lia).
Qed.

Lemma run_short_response_stored_witness :
  run length_session (press_with list_post)
  = Some (Completed,
          store_in_history plain_runtime length_session (PList [PInt 1; PInt 2]))
  ∧ (contains plain_runtime (history length_session) (PList [PInt 1; PInt 2])
     = false →
     history (store_in_history plain_runtime length_session
                (PList [PInt 1; PInt 2])) !! 0
     = Some (PList [PInt 1; PInt 2])).
Proof.
  apply (run_short_response_stored length_session (press_with list_post)
           length_session py"mm" py"cm" (PList [PInt 1; PInt 2]) 2).
  - vm_compute. reflexivity.
  - reflexivity.
  - reflexivity.
  - reflexivity.
  - reflexivity.
  - vm_compute. reflexivity.
  - reflexivity.
  - lia.
Defined.

(** ** A sequence of conversions *)

Lemma take_app_take {A} n (l m : list A) :
  take n (l ++ take n m) = take n (l ++ m).
Proof.
  rewrite !take_app, take_take. do 2 f_equal. lia.
Qed.

(** X17. After conversions with pairwise different entries, none of which
    was in the history, the history is the first five of: the new entries,
    newest first, followed by the former history.  From the fifth such
    conversion on, nothing of the former history is left. *)
Theorem record_all_fresh (entries h : list str) :
  NoDup entries →
  (∀ entry, entry ∈ entries → entry ∉ h) →
  length h ≤ 5 →
  record_all h entries = take 5 (reverse entries ++ h)
  ∧ (5 ≤ length entries → record_all h entries = take 5 (reverse entries)).
Proof.
  intros Hnd Hfresh Hlen.
  assert (record_all h entries = take 5 (reverse entries ++ h)) as Hall.
  { revert h Hfresh Hlen.
    induction Hnd as [|entry entries Hentry Hnd IH]; intros h Hfresh Hlen.
    - cbn. by rewrite take_ge.
    - cbn [record_all foldl].
      rewrite record_history_fresh_take
        by (done || apply Hfresh, list_elem_of_here).
      fold (record_all (take 5 (entry :: h)) entries).
      rewrite IH.
      + rewrite take_app_take, reverse_cons, <- app_assoc. done.
      + intros e He Hin. apply subseteq_take in Hin.
        apply elem_of_cons in Hin as [->|Hin]; [done|].
        apply (Hfresh e); [by apply list_elem_of_further | done].
      + rewrite length_take. lia. }
  split; [done|]. intros Hfive.
  rewrite Hall. apply take_app_le. by rewrite length_reverse.
Qed.

Lemma record_all_fresh_witness :
  record_all [py"old2"; py"old1"] [py"a"; py"b"; py"c"; py"d"]
  = take 5 (reverse [py"a"; py"b"; py"c"; py"d"] ++ [py"old2"; py"old1"]).
Proof.
  apply (record_all_fresh [py"a"; py"b"; py"c"; py"d"] [py"old2"; py"old1"]).
  - apply (bool_decide_unpack _). vm_compute. reflexivity.
  - apply Forall_forall. apply (bool_decide_unpack _). vm_compute. reflexivity.
  - vm_compute. lia.
Defined.

(** ** The default of the "To Unit" selector *)

(** X18. Whatever the stored "to" unit, the list of units and the "from"
    unit, the default position of the "To Unit" selector exists and is
    within the candidates (which are never empty); it is the position of the
    stored "to" unit whenever that is a unit of the list, and position 0
    otherwise. *)
Theorem default_index_in_range (stored_to : str) (units : list str) (from : str) :
  ∃ i,
    default_index stored_to units (to_options units from) = Some i
    ∧ i < length (to_options units from)
    ∧ (stored_to ∈ units → to_options units from !! i = Some stored_to)
    ∧ (stored_to ∉ units → i = 0).
Proof.
  assert (0 < length (to_options units from)) as Hpos.
  { unfold to_options. rewrite length_app. cbn. lia. }
  unfold default_index. case_bool_decide as Hin.
  - assert (stored_to ∈ to_options units from) as Hopt
        by (apply to_options_elem_of; auto).
    rewrite bool_decide_eq_true_2 by done.
    destruct (index_elem_of _ _ Hopt) as (i & Hi & Hlook).
    exists i. split_and!; [done | by eapply lookup_lt_Some | done | done].
  - exists 0. split_and!; done.
Qed.

(** ** The history panel *)

(** X19. In every session a user can bring about, whatever the responses
    were, the history panel shows nothing while the history is empty and
    otherwise its heading followed by one bullet per entry, in the order of
    the history: at most six blocks.  Once a text entry has been stored the
    panel has a bullet for it. *)
Theorem recent_conversions_panel :
  (∀ rt ss, reachable ss →
            length (recent_conversions rt ss) ≤ 6
            ∧ (history ss = [] → recent_conversions rt ss = [])
            ∧ (history ss ≠ [] →
               recent_conversions rt ss
               = py"### Recent Conversions"
                 :: ((λ entry, py"- " ++ format rt entry) <$> history ss)))
  ∧ (∀ rt ss text,
       py"- " ++ text
       ∈ recent_conversions rt (store_in_history rt ss (PStr text))).
Proof.
  split.
  - intros rt ss [Hlen _]%reachable_history.
    unfold recent_conversions, history in *.
    destruct (conversion_history ss) as [[|entry rest]|]; cbn [default] in *.
    + split_and!; [cbn; lia | done | done].
    + split_and!; [|done|done].
      cbn [length]. rewrite length_fmap. exact (le_n_S _ _ Hlen).
    + split_and!; [cbn; lia | done | done].
  - intros rt ss text. unfold recent_conversions, store_in_history.
    cbn [conversion_history].
    assert (PStr text
            ∈ insert_entry rt (PStr text) (default [] (conversion_history ss)))
      as Hin.
    { destruct (contains rt (default [] (conversion_history ss)) (PStr text))
        eqn:Hc.
      - rewrite insert_entry_present by done. by apply contains_text in Hc.
      - destruct (decide (length (default [] (conversion_history ss)) < 5)).
        + rewrite insert_entry_fresh by done. apply list_elem_of_here.
        + rewrite insert_entry_full by (done || lia). apply list_elem_of_here. }
    destruct (insert_entry _ _ _) as [|first rest]; [by apply elem_of_nil in Hin|].
    apply list_elem_of_further.
    by apply (list_elem_of_fmap_2 (λ entry, py"- " ++ format rt entry)) in Hin.
Qed.

Lemma recent_conversions_panel_witness :
  length (recent_conversions plain_runtime full_session) ≤ 6
  ∧ recent_conversions plain_runtime full_session
    = py"### Recent Conversions"
      :: ((λ entry, py"- " ++ format plain_runtime entry)
            <$> history full_session).
Proof.
  destruct recent_conversions_panel as [Hpanel _].
  destruct (Hpanel plain_runtime full_session full_session_reachable)
    as (Hlen & _ & Hshown).
  split; [exact Hlen|]. apply Hshown. vm_compute. discriminate.
Defined.

(** ** Text entries *)

(** X22. For a response that is text, line 150 is [history_entry]; for a
    text entry on a history all of whose entries are text, the update of
    lines 151-154 is [record_history] on the texts.  What is proved of these
    two holds of every session whose responses were all text. *)
Theorem text_entries_update :
  (∀ rt query response,
     history_entry_of rt query (PStr response)
     = Some (PStr (history_entry query response)))
  ∧ (∀ rt text texts,
       insert_entry rt (PStr text) (text_entries texts)
       = text_entries (record_history text texts))
  ∧ (∀ rt ss text texts,
       history ss = text_entries texts →
       history (store_in_history rt ss (PStr text))
       = text_entries (record_history text texts)).
Proof.
  split_and!.
  - apply history_entry_of_text.
  - apply insert_entry_text.
  - intros rt ss text texts Hhistory.
    rewrite history_store_in_history, Hhistory. apply insert_entry_text.
Qed.

Lemma text_entries_update_witness :
  history (store_in_history plain_runtime full_session (PStr py"e6"))
  = text_entries (record_history py"e6" five_entries).
Proof.
  destruct text_entries_update as (_ & _ & Hsession).
  apply (Hsession plain_runtime full_session py"e6" five_entries).
  reflexivity.
Defined.
